(** * BiasShield: the template-based explanation generator

    A shallow embedding of [ExplanationGenerator] from [backend/app.py]:
    [generate_loan_explanation], [generate_bias_explanation] and
    [generate_remediation_strategy], together with the parts of the Python
    runtime they rely on (binary64 arithmetic, [sorted], [max], [min],
    [str.title], [str.replace] and the [format] mini-language for
    ['.1f'] and [',.2f']).

    Python [float]s are IEEE 754 binary64 values; they are represented by
    the Standard Library's [spec_float] with precision 53 and maximal
    exponent 1024, so that products such as [0.07 * 100] round exactly as
    they do in CPython.  Python [str] values are represented by [string];
    a [dict] whose iteration order matters is an association list in
    insertion order.

    The routes call the generator with validated pydantic models
    ([application.dict()], [prediction.dict()] and a [FairnessResponse]),
    so every field is present and has its declared type: the inputs are
    records, and the defaults of [dict.get] are never used. *)

From Stdlib Require Import ZArith List String Ascii Bool Lia.
From Stdlib Require Import SpecFloat DecimalString Decimal.
From Stdlib Require Import Sorting.Permutation Sorting.Sorted.
Import ListNotations.

Local Open Scope string_scope.
Local Open Scope Z_scope.

(** ** Binary64 numbers *)

Module Float.

Definition float := spec_float.

Definition prec : Z := 53.
Definition emax : Z := 1024.

(** Conversion of a Python [int] to [float] (exact for the small literals
    of the source). *)
Definition of_int (z : Z) : float := binary_normalize prec emax z 0 false.

Definition mul : float -> float -> float := SFmul prec emax.
Definition div : float -> float -> float := SFdiv prec emax.

(** [abs(x)] *)
Definition abs : float -> float := SFabs.

(** [x < y] and [x > y] on floats; both are [False] when an operand is NaN. *)
Definition ltb (x y : float) : bool := SFltb x y.
Definition gtb (x y : float) : bool := ltb y x.
Definition leb (x y : float) : bool := SFleb x y.
Definition eqb (x y : float) : bool := SFeqb x y.

Definition is_nan (x : float) : bool :=
  match x with S754_nan => true | _ => false end.

(** The float denoted by the decimal literal [n/d] for small integers:
    a correctly rounded quotient, as the Python parser produces for
    literals such as [0.4] or [0.13]. *)
Definition decimal (n d : Z) : float := div (of_int n) (of_int d).

Definition hundred : float := Eval vm_compute in of_int 100.
Definition ten : float := Eval vm_compute in of_int 10.
Definition five : float := Eval vm_compute in of_int 5.

End Float.

(** ** Number formatting *)

Module Format.

(** Nearest integer to [n / d] for [0 <= n] and [0 < d], ties to even. *)
Definition round_half_even (n d : Z) : Z :=
  let q := n / d in
  let r := n mod d in
  match 2 * r ?= d with
  | Lt => q
  | Gt => q + 1
  | Eq => if Z.even q then q else q + 1
  end.

(** [m * 2^e * 10^digits] rounded to the nearest integer, ties to even:
    the digits that ['.<digits>f'] prints for the magnitude [m * 2^e]. *)
Definition scaled (digits : nat) (m : positive) (e : Z) : Z :=
  let n := Z.pos m * 10 ^ Z.of_nat digits in
  if 0 <=? e then n * 2 ^ e else round_half_even n (2 ^ (- e)).

Definition digits_of (z : Z) : string :=
  NilZero.string_of_uint (N.to_uint (Z.to_N z)).

(** [str(n)] for a Python [int]. *)
Definition str_int (z : Z) : string :=
  NilZero.string_of_int (Z.to_int z).

Fixpoint zeros (n : nat) : string :=
  match n with
  | O => ""
  | S k => String "0" (zeros k)
  end.

(** Left padding with zeros up to [width] characters. *)
Definition pad_zeros (width : nat) (s : string) : string :=
  zeros (width - String.length s) ++ s.

Fixpoint rev_string (s : string) (acc : string) : string :=
  match s with
  | EmptyString => acc
  | String c s' => rev_string s' (String c acc)
  end.

(** Insert a comma after every third character of [s], which holds the
    integer digits in reverse order; [k] counts the digits already emitted
    in the current group, [acc] accumulates the result in reading order. *)
Fixpoint group_rev (s : string) (k : nat) (acc : string) : string :=
  match s with
  | EmptyString => acc
  | String c s' =>
      match k with
      | 3%nat => group_rev s' 1 (String c (String "," acc))
      | _ => group_rev s' (S k) (String c acc)
      end
  end.

(** The [','] option: thousands separators in the integer digits. *)
Definition group_thousands (s : string) : string :=
  group_rev (rev_string s "") 0 "".

(** [format(x, '.<digits>f')], and [format(x, ',.<digits>f')] when
    [grouping] is set, for [digits >= 1]. *)
Definition fixed (grouping : bool) (digits : nat) (x : Float.float) : string :=
  match x with
  | S754_nan => "nan"
  | S754_infinity s => if s then "-inf" else "inf"
  | S754_zero s =>
      (if s then "-" else "") ++ "0." ++ zeros digits
  | S754_finite s m e =>
      let n := scaled digits m e in
      let p := 10 ^ Z.of_nat digits in
      let ip := digits_of (n / p) in
      (if s then "-" else "")
        ++ (if grouping then group_thousands ip else ip)
        ++ "." ++ pad_zeros digits (digits_of (n mod p))
  end.

(** [f"{x:.1f}"] *)
Definition f1 (x : Float.float) : string := fixed false 1 x.

(** [f"{x:,.2f}"] *)
Definition money (x : Float.float) : string := fixed true 2 x.

End Format.

(** ** The Python runtime used by the generator *)

Module Py.

(** Exceptions the modelled code can raise: [max] and [min] of an empty
    sequence raise [ValueError], indexing past the end of a list raises
    [IndexError]. *)
Inductive exn : Type :=
| ValueError
| IndexError.

Inductive result (A : Type) : Type :=
| Ok (a : A)
| Raise (e : exn).

Arguments Ok {A} a.
Arguments Raise {A} e.

Definition bind {A B : Type} (c : result A) (k : A -> result B) : result B :=
  match c with
  | Ok a => k a
  | Raise e => Raise e
  end.

Notation "x <- c ;; k" := (bind c (fun x => k))
  (at level 61, c at next level, right associativity).

(** A [for] loop whose body updates one variable and may raise. *)
Fixpoint for_each {A S : Type} (body : S -> A -> result S) (l : list A) (s : S)
  : result S :=
  match l with
  | [] => Ok s
  | x :: l' => s' <- body s x ;; for_each body l' s'
  end.

(** The line break of the source's string literals. *)
Definition nl : string := String (ascii_of_nat 10) "".

(** A run of source text lines, each followed by its line break: the
    value of a literal that spans several lines, or of literals that end
    in a line break. *)
Fixpoint lines (ls : list string) : string :=
  match ls with
  | [] => ""
  | l :: ls' => l ++ nl ++ lines ls'
  end.

(** *** Strings *)

Definition is_upper (c : ascii) : bool :=
  let n := nat_of_ascii c in (65 <=? n)%nat && (n <=? 90)%nat.

Definition is_lower (c : ascii) : bool :=
  let n := nat_of_ascii c in (97 <=? n)%nat && (n <=? 122)%nat.

Definition is_cased (c : ascii) : bool := is_upper c || is_lower c.

Definition to_upper (c : ascii) : ascii :=
  if is_lower c then ascii_of_nat (nat_of_ascii c - 32) else c.

Definition to_lower (c : ascii) : ascii :=
  if is_upper c then ascii_of_nat (nat_of_ascii c + 32) else c.

(** [str.title]: a letter that follows a cased character is lowered, any
    other letter is raised.  Strings are byte strings here: the bytes of a
    character outside ASCII are uncased and left as they are. *)
Fixpoint title_from (previous_is_cased : bool) (s : string) : string :=
  match s with
  | EmptyString => EmptyString
  | String c s' =>
      String (if previous_is_cased then to_lower c else to_upper c)
             (title_from (is_cased c) s')
  end.

Definition title (s : string) : string := title_from false s.

(** [s.replace(old, new)] for single characters. *)
Fixpoint replace (old new : ascii) (s : string) : string :=
  match s with
  | EmptyString => EmptyString
  | String c s' =>
      String (if Ascii.eqb c old then new else c) (replace old new s')
  end.

(** [needle in hay] *)
Fixpoint contains (needle hay : string) : bool :=
  if String.prefix needle hay then true
  else match hay with
       | EmptyString => false
       | String _ hay' => contains needle hay'
       end.

(** *** [sorted], [max] and [min] with a float key *)

Section Keyed.

Context {A : Type}.
Variable key : A -> Float.float.

(** [sorted(l, key=key, reverse=True)].  The only comparison [sorted]
    performs is [<] on keys, and with [reverse=True] it remains stable:
    elements with equal keys keep the order they have in [l].  An element
    is therefore inserted in front of the first element of the sorted rest
    whose key is not greater than its own.  On keys that are totally
    preordered by [<], that is on floats other than NaN, every stable sort
    returns this list; with a NaN among the keys the list CPython returns
    depends on the runs its merge sort finds, and the statements about the
    order below assume there is none. *)
Fixpoint insert_reverse (x : A) (l : list A) : list A :=
  match l with
  | [] => [x]
  | y :: l' =>
      if Float.ltb (key x) (key y) then y :: insert_reverse x l'
      else x :: y :: l'
  end.

Fixpoint sorted_reverse (l : list A) : list A :=
  match l with
  | [] => []
  | x :: l' => insert_reverse x (sorted_reverse l')
  end.

(** [max(l, key=key)]: the first item is the candidate, and a later item
    replaces the candidate when its key is [>] the candidate's. *)
Definition max_by (l : list A) : result A :=
  match l with
  | [] => Raise ValueError
  | x :: l' =>
      Ok (fold_left
            (fun best item =>
               if Float.gtb (key item) (key best) then item else best)
            l' x)
  end.

(** [min(l, key=key)], with [<] in place of [>]. *)
Definition min_by (l : list A) : result A :=
  match l with
  | [] => Raise ValueError
  | x :: l' =>
      Ok (fold_left
            (fun best item =>
               if Float.ltb (key item) (key best) then item else best)
            l' x)
  end.

End Keyed.

End Py.

Import Py.

(** ** Data model (the pydantic models of [app.py]) *)

Module Application.

Record LoanApplication : Type := {
  gender : string;
  race : string;
  age : Z;
  income : Float.float;
  credit_score : Z;
  loan_amount : Float.float;
  employment_type : string;
  education_level : string;
  citizenship_status : string;
  language_proficiency : string;
  disability_status : string;
  criminal_record : string;
  zip_code_group : string
}.

End Application.

Record PredictionResponse : Type := {
  approved : bool;
  approval_probability : Float.float;
  explanation : list (string * Float.float)
}.

Record BiasMetrics : Type := {
  approval_rates : list (string * Float.float);
  approval_disparity : Float.float;
  fp_rates : list (string * Float.float);
  fn_rates : list (string * Float.float);
  fp_disparity : Float.float;
  fn_disparity : Float.float
}.

Record FairnessResponse : Type := {
  gender : BiasMetrics;
  race : BiasMetrics;
  age_group : BiasMetrics;
  disability_status : BiasMetrics
}.

(** ** [class ExplanationGenerator] *)

Module ExplanationGenerator.

(** *** [generate_loan_explanation] *)

(** [factor.replace('_', ' ').title()] *)
Definition factor_name (factor : string) : string :=
  title (replace "_" " " factor).

(** The literal that opens the message of an approved application. *)
Definition approved_opening (probability : Float.float) : list string :=
  [ "";
    "We are pleased to inform you that your loan application has been approved with an approval probability of "
      ++ Format.f1 probability
      ++ "%. Our BiasShield system has carefully evaluated your application, taking into account various factors that contribute to your creditworthiness.";
    "";
    "The key factors that positively influenced this decision include:" ].

Definition approved_bullet (fi : string * Float.float) : string :=
  "- " ++ factor_name (fst fi) ++ ": This factor had a "
       ++ Format.f1 (Float.mul (snd fi) Float.hundred)
       ++ "% impact on your approval".

Definition stability_statement (application : Application.LoanApplication)
  : string :=
  "Your credit score of "
    ++ Format.str_int (Application.credit_score application)
    ++ " and income of $" ++ Format.money (Application.income application)
    ++ " demonstrate financial stability, which are important indicators of your ability to repay the loan.".

Definition maintenance_recommendations : list string :=
  [ "1. Maintain your current credit score by making timely payments";
    "2. Consider setting up automatic payments to avoid any missed deadlines";
    "3. Review your loan terms carefully before proceeding" ].

Definition approved_closing (application : Application.LoanApplication)
  : list string :=
  [ ""; stability_statement application; ""; "Recommendations:" ]
    ++ maintenance_recommendations
    ++ [ "";
         "Thank you for choosing our services. If you have any questions about your approval or the next steps, please don't hesitate to contact our customer service team.";
         "";
         "BiasShield Decision System" ].

(** The literal that opens the message of a denied application. *)
Definition denied_opening (probability : Float.float) : list string :=
  [ "";
    "We regret to inform you that your loan application has not been approved at this time. Our BiasShield system has carefully evaluated your application and determined that it does not meet our current lending criteria. The decision was made with an approval probability of "
      ++ Format.f1 probability ++ "%.";
    "";
    "The key factors that influenced this decision include:" ].

Definition denied_bullet (fi : string * Float.float) : string :=
  "- " ++ factor_name (fst fi) ++ ": This factor had a "
       ++ Format.f1 (Float.mul (snd fi) Float.hundred)
       ++ "% impact on the decision".

Definition improvement_recommendations : list string :=
  [ "1. Work on improving your credit score through timely bill payments";
    "2. Reduce existing debt before applying for new credit";
    "3. Consider applying for a smaller loan amount relative to your income";
    "4. Wait 3-6 months before reapplying to allow time for credit improvements" ].

Definition invitation : string :=
  "you can request a detailed explanation of the decision".

Definition denied_closing : list string :=
  [ ""; "Recommendations to improve your future applications:" ]
    ++ improvement_recommendations
    ++ [ "";
         "We encourage you to review your credit report for any inaccuracies and address any issues that may be affecting your creditworthiness. If you believe this decision was made in error or would like more information, "
           ++ invitation ++ ".";
         "";
         "BiasShield Decision System" ].

(** [sorted(explanation_factors.items(), key=lambda x: x[1],
    reverse=True)[:3]] *)
Definition top_factors (prediction : PredictionResponse)
  : list (string * Float.float) :=
  let explanation_factors := explanation prediction in
  let sorted_factors := sorted_reverse snd explanation_factors in
  firstn 3 sorted_factors.

Definition generate_loan_explanation
  (application : Application.LoanApplication)
  (prediction : PredictionResponse) : string :=
  let probability :=
    Float.mul (approval_probability prediction) Float.hundred in
  let top_factors := top_factors prediction in
  if approved prediction then
    let message := lines (approved_opening probability) in
    let message :=
      fold_left (fun message fi => message ++ lines [approved_bullet fi])
                top_factors message in
    let message := message ++ lines (approved_closing application) in
    message
  else
    let message := lines (denied_opening probability) in
    let message :=
      fold_left (fun message fi => message ++ lines [denied_bullet fi])
                top_factors message in
    let message := message ++ lines denied_closing in
    message.

(** *** [generate_bias_explanation] *)

(** The list [disparities] both report functions build: the four
    attributes in a fixed order, each with [approval_disparity * 100]. *)
Definition disparities (fairness_data : FairnessResponse)
  : list (string * Float.float) :=
  let gender_disparity :=
    Float.mul (approval_disparity (gender fairness_data)) Float.hundred in
  let race_disparity :=
    Float.mul (approval_disparity (race fairness_data)) Float.hundred in
  let age_disparity :=
    Float.mul (approval_disparity (age_group fairness_data)) Float.hundred in
  let disability_disparity :=
    Float.mul (approval_disparity (disability_status fairness_data))
              Float.hundred in
  [ ("Gender", gender_disparity);
    ("Race", race_disparity);
    ("Age Group", age_disparity);
    ("Disability Status", disability_disparity) ].

(** [key=lambda x: abs(x[1])] *)
Definition magnitude (d : string * Float.float) : Float.float :=
  Float.abs (snd d).

Definition sorted_disparities (fairness_data : FairnessResponse)
  : list (string * Float.float) :=
  sorted_reverse magnitude (disparities fairness_data).

(** [max(abs(d[1]) for d in disparities)] *)
Definition max_magnitude (fairness_data : FairnessResponse)
  : result Float.float :=
  max_by (fun m => m) (map magnitude (disparities fairness_data)).

Definition high_alert : string :=
  "**High Bias Alert**: Significant disparities detected in approval rates across protected attributes.".
Definition moderate_alert : string :=
  "**Moderate Bias Alert**: Some disparities detected in approval rates across protected attributes.".
Definition low_alert : string :=
  "**Low Bias Alert**: Minimal disparities detected in approval rates across protected attributes.".

Definition high_conclusion : string :=
  "The model shows significant bias that requires immediate attention. Implementing bias mitigation techniques is strongly recommended before deploying this model in production.".
Definition moderate_conclusion : string :=
  "The model shows moderate bias that should be addressed. Consider implementing bias mitigation techniques to improve fairness before full deployment.".
Definition low_conclusion : string :=
  "The model shows acceptable levels of bias, but continuous monitoring is recommended to ensure fairness is maintained over time.".

Definition regulatory_concern : string :=
  "- **Regulatory concern**: This disparity exceeds the typical 5% threshold for regulatory scrutiny.".

Definition disparity_line (disparity : Float.float) : string :=
  "- Approval rate disparity: " ++ Format.f1 disparity ++ "%".

Definition highest_line (highest : string * Float.float) : string :=
  "- Highest approval rate: " ++ fst highest ++ " ("
    ++ Format.f1 (Float.mul (snd highest) Float.hundred) ++ "%)".

Definition lowest_line (lowest : string * Float.float) : string :=
  "- Lowest approval rate: " ++ fst lowest ++ " ("
    ++ Format.f1 (Float.mul (snd lowest) Float.hundred) ++ "%)".

(** The body shared by the four branches of the loop: the source repeats
    it verbatim for each attribute, with that attribute's
    [approval_rates]. *)
Definition attribute_details
  (rates : list (string * Float.float)) (disparity : Float.float)
  (message : string) : result string :=
  highest <- max_by snd rates ;;
  lowest <- min_by snd rates ;;
  let message := message ++ lines [disparity_line disparity] in
  let message := message ++ lines [highest_line highest] in
  let message := message ++ lines [lowest_line lowest] in
  let message :=
    if Float.gtb (Float.abs disparity) Float.five
    then message ++ lines [regulatory_concern]
    else message in
  Ok message.

(** The body of [for attribute, disparity in sorted_disparities]. *)
Definition attribute_section
  (fairness_data : FairnessResponse) (message : string)
  (ad : string * Float.float) : result string :=
  let attribute := fst ad in
  let disparity := snd ad in
  let message := message ++ lines ["**" ++ attribute ++ "**:"] in
  message <-
    (if String.eqb attribute "Gender" then
       attribute_details (approval_rates (gender fairness_data))
                         disparity message
     else if String.eqb attribute "Race" then
       attribute_details (approval_rates (race fairness_data))
                         disparity message
     else if String.eqb attribute "Age Group" then
       attribute_details (approval_rates (age_group fairness_data))
                         disparity message
     else if String.eqb attribute "Disability Status" then
       attribute_details (approval_rates (disability_status fairness_data))
                         disparity message
     else Ok message) ;;
  Ok (message ++ lines [""]).

Definition generate_bias_explanation (fairness_data : FairnessResponse)
  : result string :=
  let disparities := disparities fairness_data in
  let sorted_disparities := sorted_reverse magnitude disparities in
  let message := lines ["## Bias Analysis Report"; ""] in
  let message := message ++ lines ["### Summary of Findings"; ""] in
  m <- max_by (fun m => m) (map magnitude disparities) ;;
  let message :=
    if Float.gtb m Float.ten then message ++ lines [high_alert; ""]
    else if Float.gtb m Float.five then message ++ lines [moderate_alert; ""]
    else message ++ lines [low_alert; ""] in
  let message := message ++ lines ["### Detailed Analysis"; ""] in
  message <-
    for_each (attribute_section fairness_data) sorted_disparities message ;;
  let message := message ++ lines ["### Conclusion"; ""] in
  m <- max_by (fun m => m) (map magnitude disparities) ;;
  let message :=
    if Float.gtb m Float.ten then message ++ lines [high_conclusion]
    else if Float.gtb m Float.five then message ++ lines [moderate_conclusion]
    else message ++ lines [low_conclusion] in
  Ok message.

(** *** [generate_remediation_strategy] *)

(** [sorted_disparities[0][0]]; indexing an empty list raises. *)
Definition most_biased (fairness_data : FairnessResponse) : result string :=
  let disparities := disparities fairness_data in
  let sorted_disparities := sorted_reverse magnitude disparities in
  match sorted_disparities with
  | [] => Raise IndexError
  | first :: _ => Ok (fst first)
  end.

Definition focus_sentence (most_biased : string) : string :=
  "   - Focus particularly on " ++ most_biased
    ++ " fairness, which shows the highest disparity".

(** The lines appended before the sentence that names the attribute. *)
Definition remediation_head : list string :=
  [ "## Bias Remediation Strategy"; "";
    "### Technical Strategies"; "";
    "1. **Fairness Constraints**:";
    "   - Implement Demographic Parity constraints during model training";
    "   - Apply Equalized Odds constraints to balance error rates across groups" ].

(** The lines appended after it. *)
Definition remediation_rest : list string :=
  [ "2. **Data Rebalancing**:";
    "   - Apply instance weighting to compensate for underrepresented groups";
    "   - Use reweighing techniques from the AIF360 toolkit";
    "   - Consider synthetic data generation for minority groups"; "";
    "3. **Model Adjustments**:";
    "   - Optimize classification thresholds separately for each demographic group";
    "   - Implement adversarial debiasing techniques";
    "   - Consider ensemble methods that combine multiple fair classifiers"; "";
    "### Feature Engineering Approaches"; "";
    "1. **Feature Selection**:";
    "   - Remove or reduce weight of features highly correlated with protected attributes";
    "   - Identify and eliminate proxy variables that may encode bias"; "";
    "2. **Feature Transformation**:";
    "   - Apply fairness-aware feature transformations";
    "   - Develop composite features that are less correlated with protected attributes"; "";
    "### Policy Recommendations"; "";
    "1. **Process Changes**:";
    "   - Implement a second-level review for rejected applications from protected groups";
    "   - Establish clear documentation requirements for all lending decisions"; "";
    "2. **Monitoring Framework**:";
    "   - Set up continuous monitoring of approval rates across demographic groups";
    "   - Establish disparity thresholds that trigger automatic reviews";
    "   - Conduct regular fairness audits with detailed reporting"; "";
    "### Implementation Considerations"; "";
    "1. **Performance Tradeoffs**:";
    "   - Be aware that some fairness constraints may slightly reduce overall model accuracy";
    "   - Establish acceptable thresholds for both fairness and performance"; "";
    "2. **Regulatory Compliance**:";
    "   - Document all bias mitigation efforts for regulatory review";
    "   - Ensure compliance with ECOA, FHA, and FCRA requirements";
    "   - Prepare explanations for any remaining disparities"; "";
    "3. **Validation Approach**:";
    "   - Test remediation strategies on historical data before implementation";
    "   - Use A/B testing to validate improvements in fairness metrics";
    "   - Establish a feedback loop for continuous improvement"; "" ].

Definition generate_remediation_strategy (fairness_data : FairnessResponse)
  : result string :=
  most_biased <- most_biased fairness_data ;;
  let message := lines ["## Bias Remediation Strategy"; ""] in
  let message := message ++ lines ["### Technical Strategies"; ""] in
  let message := message ++ lines ["1. **Fairness Constraints**:"] in
  let message :=
    message ++ lines ["   - Implement Demographic Parity constraints during model training"] in
  let message :=
    message ++ lines ["   - Apply Equalized Odds constraints to balance error rates across groups"] in
  let message := message ++ lines [focus_sentence most_biased; ""] in
  let message := message ++ lines remediation_rest in
  Ok message.

End ExplanationGenerator.

(** ** The sample data of the HTTP routes

    [/predict] attaches a fixed explanation mapping to every prediction and
    [/fairness] returns fixed sample metrics; both are inputs of the
    generator. *)

Module Routes.

Definition D (n : Z) : Float.float := Float.decimal n 100.

(** The [explanation] dictionary built by [predict]. *)
Definition predict_explanation : list (string * Float.float) :=
  [ ("credit_score", D 40); ("income", D 30); ("loan_amount", D 20);
    ("age", D 5); ("gender", D 3); ("race", D 2) ].

Definition metrics
  (approval_rates : list (string * Float.float)) (approval_disparity : Float.float)
  (fp_rates fn_rates : list (string * Float.float))
  (fp_disparity fn_disparity : Float.float) : BiasMetrics :=
  {| approval_rates := approval_rates;
     approval_disparity := approval_disparity;
     fp_rates := fp_rates;
     fn_rates := fn_rates;
     fp_disparity := fp_disparity;
     fn_disparity := fn_disparity |}.

(** The value returned by [get_fairness_metrics]. *)
Definition get_fairness_metrics : FairnessResponse :=
  {| gender :=
       metrics [("Male", D 72); ("Female", D 64)] (D 8)
               [("Male", D 15); ("Female", D 12)]
               [("Male", D 10); ("Female", D 18)] (D 3) (D 8);
     race :=
       metrics [("White", D 75); ("Black", D 62); ("Asian", D 70);
                ("Hispanic", D 65)] (D 13)
               [("White", D 16); ("Black", D 11); ("Asian", D 14);
                ("Hispanic", D 12)]
               [("White", D 9); ("Black", D 19); ("Asian", D 12);
                ("Hispanic", D 16)] (D 5) (D 10);
     age_group :=
       metrics [("Under 25", D 65); ("25-60", D 72); ("Over 60", D 68)] (D 7)
               [("Under 25", D 13); ("25-60", D 15); ("Over 60", D 14)]
               [("Under 25", D 18); ("25-60", D 10); ("Over 60", D 15)]
               (D 2) (D 8);
     disability_status :=
       metrics [("Yes", D 62); ("No", D 73)] (D 11)
               [("Yes", D 12); ("No", D 15)]
               [("Yes", D 20); ("No", D 9)] (D 3) (D 11) |}.

End Routes.

(** ** Vocabulary of the specification *)

Module FloatOrder.

(** A key in [Z * Z * Z] whose lexicographic order is the order that
    [SFcompare] decides on floats other than NaN. *)
Definition order_key (x : Float.float) : Z * Z * Z :=
  match x with
  | S754_nan => (0, 0, 0)
  | S754_zero _ => (0, 0, 0)
  | S754_infinity true => (-2, 0, 0)
  | S754_infinity false => (2, 0, 0)
  | S754_finite true m e => (-1, - e, - Z.pos m)
  | S754_finite false m e => (1, e, Z.pos m)
  end.

Definition key_lt (k k' : Z * Z * Z) : Prop :=
  let '(a, b, c) := k in
  let '(a', b', c') := k' in
  a < a' \/ (a = a' /\ (b < b' \/ (b = b' /\ c < c'))).

Definition not_nan (x : Float.float) : Prop := Float.is_nan x = false.

End FloatOrder.

Module Spec.

Import FloatOrder ExplanationGenerator.

Local Open Scope list_scope.



(** [first_extreme better l x]: [x] is an element of [l] that is strictly
    [better] than every element in front of it, while no element behind it
    is [better] than [x]. *)
Definition first_extreme {A : Type} (better : A -> A -> bool)
  (l : list A) (x : A) : Prop :=
  exists before after,
    l = before ++ x :: after /\
    Forall (fun e => better x e = true) before /\
    Forall (fun e => better e x = false) after.

Definition greater {A : Type} (key : A -> Float.float) (a b : A) : bool :=
  Float.gtb (key a) (key b).

Definition less {A : Type} (key : A -> Float.float) (a b : A) : bool :=
  Float.ltb (key a) (key b).

(** The severity tiers of the Disparity Ranker, in the specification's
    words: high above 10, moderate above 5 and at most 10, low otherwise. *)
Inductive tier : Type :=
| low
| moderate
| high.

Definition severity (m : Float.float) : tier :=
  if Float.gtb m Float.ten then high
  else if Float.gtb m Float.five && Float.leb m Float.ten then moderate
  else low.

Definition alert_of (t : tier) : string :=
  match t with
  | high => high_alert
  | moderate => moderate_alert
  | low => low_alert
  end.

Definition conclusion_of (t : tier) : string :=
  match t with
  | high => high_conclusion
  | moderate => moderate_conclusion
  | low => low_conclusion
  end.

(** The [approval_rates] the report reads for an attribute label. *)
Definition rates_of (fairness_data : FairnessResponse) (attribute : string)
  : option (list (string * Float.float)) :=
  if String.eqb attribute "Gender" then
    Some (approval_rates (gender fairness_data))
  else if String.eqb attribute "Race" then
    Some (approval_rates (race fairness_data))
  else if String.eqb attribute "Age Group" then
    Some (approval_rates (age_group fairness_data))
  else if String.eqb attribute "Disability Status" then
    Some (approval_rates (disability_status fairness_data))
  else None.

(** Whether the subsection of an attribute carries the regulatory flag. *)
Definition flagged (disparity : Float.float) : bool :=
  Float.gtb (Float.abs disparity) Float.five.

(** The lines of an attribute's subsection, given the groups reported as
    highest and lowest. *)
Definition section_lines (ad : string * Float.float)
  (highest lowest : string * Float.float) : list string :=
  [ ("**" ++ fst ad ++ "**:")%string;
    disparity_line (snd ad);
    highest_line highest;
    lowest_line lowest ]
    ++ (if flagged (snd ad) then [regulatory_concern] else [])
    ++ [ "" ].

(** [section_of fairness_data ad highest lowest ls]: [ls] is the subsection
    of attribute [ad], in which [highest] and [lowest] are the groups that
    [max] and [min] select from the attribute's [approval_rates]. *)
Definition section_of (fairness_data : FairnessResponse)
  (ad : string * Float.float) (ls : list string) : Prop :=
  exists rates highest lowest,
    rates_of fairness_data (fst ad) = Some rates /\
    max_by snd rates = Ok highest /\
    min_by snd rates = Ok lowest /\
    ls = section_lines ad highest lowest.

(** The lines of a bias report with tier [t] and subsections [sections]. *)
Definition report_lines (t : tier) (sections : list (list string))
  : list string :=
  [ "## Bias Analysis Report"; "";
    "### Summary of Findings"; "";
    alert_of t; "";
    "### Detailed Analysis"; "" ]
    ++ List.concat sections
    ++ [ "### Conclusion"; ""; conclusion_of t ].

(** The lines of a remediation strategy that names [attribute]. *)
Definition strategy_lines (attribute : string) : list string :=
  remediation_head ++ [ focus_sentence attribute; "" ] ++ remediation_rest.

(** The lines of a loan-decision explanation. *)
Definition loan_lines (application : Application.LoanApplication)
  (prediction : PredictionResponse) : list string :=
  let probability :=
    Float.mul (approval_probability prediction) Float.hundred in
  if approved prediction then
    approved_opening probability
      ++ map approved_bullet (top_factors prediction)
      ++ approved_closing application
  else
    denied_opening probability
      ++ map denied_bullet (top_factors prediction)
      ++ denied_closing.

(** The bullet of a factor, as the message shows it. *)
Definition factor_bullet (approved : bool) (fi : string * Float.float)
  : string :=
  ("- " ++ title (replace "_" " " (fst fi)) ++ ": This factor had a "
        ++ Format.f1 (Float.mul (snd fi) Float.hundred) ++ "% impact on "
        ++ (if approved then "your approval" else "the decision"))%string.

Definition is_newline (c : ascii) : bool := Ascii.eqb c (ascii_of_nat 10).

(** [s.split("\n")]: the text between line breaks. *)
Fixpoint split_lines (s : string) : list string :=
  match s with
  | EmptyString => [ EmptyString ]
  | String c s' =>
      if is_newline c then EmptyString :: split_lines s'
      else match split_lines s' with
           | l :: ls => String c l :: ls
           | [] => [ String c EmptyString ]
           end
  end.

(** A string without line break. *)
Fixpoint single_line (s : string) : bool :=
  match s with
  | EmptyString => true
  | String c s' => negb (is_newline c) && single_line s'
  end.

Definition is_digit (c : ascii) : bool :=
  let n := nat_of_ascii c in (48 <=? n)%nat && (n <=? 57)%nat.

(** A numbered recommendation: a digit, a full stop and a space. *)
Definition is_numbered (l : string) : bool :=
  match l with
  | String d (String "." (String " " _)) => is_digit d
  | _ => false
  end.

(** A bullet of the factor list. *)
Definition is_bullet (l : string) : bool := String.prefix "- " l.

(** Shapes of formatted numbers. *)
Definition two_digits (s : string) : bool :=
  match s with
  | String a (String b EmptyString) => is_digit a && is_digit b
  | _ => false
  end.

Definition one_digit (s : string) : bool :=
  match s with
  | String a EmptyString => is_digit a
  | _ => false
  end.

Fixpoint all_digits (s : string) : bool :=
  match s with
  | EmptyString => true
  | String c s' => is_digit c && all_digits s'
  end.

(** The text with its commas removed. *)
Fixpoint ungroup (s : string) : string :=
  match s with
  | EmptyString => EmptyString
  | String c s' =>
      if Ascii.eqb c "," then ungroup s' else String c (ungroup s')
  end.

(** A run of groups, each a comma followed by three digits. *)
Inductive groups_of_three : string -> Prop :=
| groups_nil : groups_of_three EmptyString
| groups_cons (a b c : ascii) (t : string) :
    is_digit a = true -> is_digit b = true -> is_digit c = true ->
    groups_of_three t ->
    groups_of_three (String "," (String a (String b (String c t)))).

(** One to three digits followed by groups of three. *)
Definition grouped (s : string) : Prop :=
  exists head t : string,
    s = (head ++ t)%string /\
    (1 <= String.length head <= 3)%nat /\
    all_digits head = true /\
    groups_of_three t.

(** No disparity of the report is NaN. *)
Definition disparities_not_nan (fairness_data : FairnessResponse) : Prop :=
  not_nan (approval_disparity (gender fairness_data)) /\
  not_nan (approval_disparity (race fairness_data)) /\
  not_nan (approval_disparity (age_group fairness_data)) /\
  not_nan (approval_disparity (disability_status fairness_data)).

(** Every attribute has at least one group. *)
Definition rates_nonempty (fairness_data : FairnessResponse) : Prop :=
  approval_rates (gender fairness_data) <> [] /\
  approval_rates (race fairness_data) <> [] /\
  approval_rates (age_group fairness_data) <> [] /\
  approval_rates (disability_status fairness_data) <> [].

(** No approval rate of the report is NaN. *)
Definition rates_not_nan (fairness_data : FairnessResponse) : Prop :=
  forall attribute rates,
    rates_of fairness_data attribute = Some rates ->
    Forall (fun r => not_nan (snd r)) rates.

(** No group label holds a line break. *)
Definition group_names_single_line (fairness_data : FairnessResponse) : Prop :=
  forall attribute rates,
    rates_of fairness_data attribute = Some rates ->
    Forall (fun r => single_line (fst r) = true) rates.

(** Two reports that agree on everything the generator reads: the approval
    rates and approval disparities of the four attributes. *)
Definition same_approval (m1 m2 : BiasMetrics) : Prop :=
  approval_rates m1 = approval_rates m2 /\
  approval_disparity m1 = approval_disparity m2.

Definition same_approvals (f1 f2 : FairnessResponse) : Prop :=
  same_approval (gender f1) (gender f2) /\
  same_approval (race f1) (race f2) /\
  same_approval (age_group f1) (age_group f2) /\
  same_approval (disability_status f1) (disability_status f2).

End Spec.

(** ** Sample inputs *)

Module Samples.

(** A report whose disparities tie in pairs: 5% for gender and disability
    status, 13% for race and age group. *)
Definition tied_metrics : FairnessResponse :=
  {| gender :=
       Routes.metrics [("Male", Routes.D 70); ("Female", Routes.D 65)]
                      (Routes.D 5) [] [] (Routes.D 0) (Routes.D 0);
     race :=
       Routes.metrics [("White", Routes.D 75); ("Black", Routes.D 62)]
                      (Routes.D 13) [] [] (Routes.D 0) (Routes.D 0);
     age_group :=
       Routes.metrics [("25-60", Routes.D 75); ("Over 60", Routes.D 62)]
                      (Routes.D 13) [] [] (Routes.D 0) (Routes.D 0);
     disability_status :=
       Routes.metrics [("Yes", Routes.D 70); ("No", Routes.D 65)]
                      (Routes.D 5) [] [] (Routes.D 0) (Routes.D 0) |}.

(** A report whose four attributes all have the disparity [d] and the
    rates [rates]. *)
Definition uniform_metrics (rates : list (string * Float.float))
  (d : Float.float) : FairnessResponse :=
  let m := Routes.metrics rates d [] [] d d in
  {| gender := m; race := m; age_group := m; disability_status := m |}.

Definition applicant (credit_score : Z) (income : Float.float)
  : Application.LoanApplication :=
  {| Application.gender := "Female";
     Application.race := "Asian";
     Application.age := 35;
     Application.income := income;
     Application.credit_score := credit_score;
     Application.loan_amount := Float.of_int 100000;
     Application.employment_type := "Full-time";
     Application.education_level := "Bachelor";
     Application.citizenship_status := "Citizen";
     Application.language_proficiency := "Fluent";
     Application.disability_status := "No";
     Application.criminal_record := "No";
     Application.zip_code_group := "Urban" |}.

(** The prediction of the specification's example: approved with
    probability 0.8 and three factors. *)
Definition approved_prediction : PredictionResponse :=
  {| approved := true;
     approval_probability := Routes.D 80;
     explanation :=
       [ ("credit_score", Routes.D 40); ("income", Routes.D 30);
         ("loan_amount", Routes.D 20) ] |}.

(** A denied prediction with the explanation that [predict] attaches. *)
Definition denied_prediction : PredictionResponse :=
  {| approved := false;
     approval_probability := Routes.D 20;
     explanation := Routes.predict_explanation |}.

(** A prediction with negative impacts and a tie. *)
Definition signed_prediction : PredictionResponse :=
  {| approved := false;
     approval_probability := Routes.D 20;
     explanation :=
       [ ("debt_ratio", SFopp (Routes.D 90)); ("income", Routes.D 10);
         ("age", Routes.D 10); ("credit_score", Routes.D 25);
         ("zip", SFopp (Routes.D 5)) ] |}.

(** The sample metrics of [/fairness] with other error rates and error
    disparities. *)
Definition other_error_rates : FairnessResponse :=
  let change m :=
    Routes.metrics (approval_rates m) (approval_disparity m)
                   [] [("Unknown", S754_nan)] (Routes.D 99) S754_nan in
  {| gender := change (gender Routes.get_fairness_metrics);
     race := change (race Routes.get_fairness_metrics);
     age_group := change (age_group Routes.get_fairness_metrics);
     disability_status :=
       change (disability_status Routes.get_fairness_metrics) |}.


End Samples.

(** ** The routes of [app.py] *)

Module Api.

(** What a route can raise: a built-in exception of the generator, or
    FastAPI's [HTTPException], which is itself a subclass of
    [Exception]. *)
Inductive raised : Type :=
| Builtin (e : exn)
| HTTPException (status_code : Z) (detail : string).

Inductive outcome (A : Type) : Type :=
| Returns (a : A)
| Raises (e : raised).

Arguments Returns {A} a.
Arguments Raises {A} e.

Definition of_result {A : Type} (r : result A) : outcome A :=
  match r with
  | Ok a => Returns a
  | Raise e => Raises (Builtin e)
  end.

(** The keys of [viz_map]. *)
Definition viz_map : list string :=
  [ "gender_approval"; "race_approval"; "age_approval";
    "disability_approval"; "gender_error"; "race_error"; "age_error";
    "disability_error"; "shap_summary"; "shap_bar"; "bias_summary" ].

Definition fifty_thousand : Float.float := Eval vm_compute in Float.of_int 50000.
Definition three : Float.float := Eval vm_compute in Float.of_int 3.

(** The rule of [predict]:
    [credit_score >= 600 and income >= 50000 and loan_amount <= income * 3]. *)
Definition rule (application : Application.LoanApplication) : bool :=
  (600 <=? Application.credit_score application)
  && Float.leb fifty_thousand (Application.income application)
  && Float.leb (Application.loan_amount application)
               (Float.mul (Application.income application) three).

Section Routes.

(** [str(e)], the text of an exception, which depends on the versions of
    Python and Starlette. *)
Variable str : raised -> string.

(** [try: ... except Exception as e: raise HTTPException(status_code=500,
    detail=str(e))], the frame around the body of every route. *)
Definition except_500 {A : Type} (body : outcome A) : outcome A :=
  match body with
  | Returns a => Returns a
  | Raises e => Raises (HTTPException 500 (str e))
  end.

(** [predict], as the value the route function returns.  The data frame
    holds the one application; its [Age_Group] column is computed and not
    used.  The statements about [predict] are for applications whose age
    and credit score fit the 64-bit integer columns of the frame. *)
Definition predict (application : Application.LoanApplication)
  : outcome PredictionResponse :=
  except_500
    (let approved := rule application in
     let probability := if approved then Routes.D 80 else Routes.D 20 in
     let explanation := Routes.predict_explanation in
     Returns {| approved := approved;
                approval_probability := probability;
                explanation := explanation |}).

(** [get_visualization] *)
Definition get_visualization (viz_type : string)
  : outcome string :=
  except_500
    (if negb (existsb (String.eqb viz_type) viz_map) then
       Raises (HTTPException 404
                 ("Visualization " ++ viz_type ++ " not found"))
     else
       Returns ("Visualization " ++ viz_type ++ " would be returned here")).

(** [explain_loan] *)
Definition explain_loan (application : Application.LoanApplication)
  (prediction : PredictionResponse) : outcome string :=
  except_500
    (let explanation :=
       ExplanationGenerator.generate_loan_explanation application prediction in
     Returns explanation).

(** [explain_bias] *)
Definition explain_bias (fairness_data : FairnessResponse) : outcome string :=
  except_500
    (match ExplanationGenerator.generate_bias_explanation fairness_data with
     | Ok explanation => Returns explanation
     | Raise e => Raises (Builtin e)
     end).

(** [remediation_strategy] *)
Definition remediation_strategy (fairness_data : FairnessResponse)
  : outcome string :=
  except_500
    (match ExplanationGenerator.generate_remediation_strategy fairness_data with
     | Ok explanation => Returns explanation
     | Raise e => Raises (Builtin e)
     end).

End Routes.

End Api.

(** ** [loan_report.py]: the tables and paragraphs of the PDF report

    [generate_loan_report] lays out a document with reportlab.  Modelled
    here are the two computations it performs on its arguments before the
    layout: the rows of the factor table and the paragraphs of the
    explanation text.  Text is ASCII, as for [str.title]: [str.strip]
    takes the bytes of a character outside ASCII for printable ones. *)

Module LoanReport.

(** [s.replace(old, new)] for a non-empty [old]: occurrences are replaced
    from left to right and do not overlap.  [skip] counts the characters
    of the current occurrence still to be passed over. *)
Fixpoint replace_from (old new : string) (skip : nat) (s : string) : string :=
  match s with
  | EmptyString => EmptyString
  | String c s' =>
      match skip with
      | S k => replace_from old new k s'
      | O =>
          if String.prefix old s
          then new ++ replace_from old new (String.length old - 1) s'
          else String c (replace_from old new 0 s')
      end
  end.

Definition str_replace (old new s : string) : string :=
  replace_from old new 0 s.

(** [c.isspace()] on ASCII. *)
Definition is_space (c : ascii) : bool :=
  let n := nat_of_ascii c in
  ((9 <=? n)%nat && (n <=? 13)%nat)
  || ((28 <=? n)%nat && (n <=? 32)%nat).

(** The truth value of [s.strip()]: some character is not white space. *)
Fixpoint stripped_nonempty (s : string) : bool :=
  match s with
  | EmptyString => false
  | String c s' => negb (is_space c) || stripped_nonempty s'
  end.

(** [explanation_text.replace('**', '').replace('*', '')] *)
Definition processed_text (explanation_text : string) : string :=
  str_replace "*" "" (str_replace "**" "" explanation_text).

(** The body of [for line in processed_text.split('\n')], on the pair of
    [paragraphs] and [current_paragraph]. *)
Definition paragraph_step (state : list string * list string) (line : string)
  : list string * list string :=
  let '(paragraphs, current_paragraph) := state in
  if stripped_nonempty line then
    (paragraphs, current_paragraph ++ [ line ])%list
  else
    match current_paragraph with
    | _ :: _ =>
        ((paragraphs ++ [ String.concat " " current_paragraph ])%list, [])
    | [] => (paragraphs, current_paragraph)
    end.

(** The list [paragraphs] once the loop and the statement after it have
    run. *)
Definition paragraphs (explanation_text : string) : list string :=
  let '(paragraphs, current_paragraph) :=
    fold_left paragraph_step
              (Spec.split_lines (processed_text explanation_text))
              ([], []) in
  match current_paragraph with
  | _ :: _ => (paragraphs ++ [ String.concat " " current_paragraph ])%list
  | [] => paragraphs
  end.

(** The paragraphs that reach the document: [if paragraph.strip()]. *)
Definition laid_out (explanation_text : string) : list string :=
  filter stripped_nonempty (paragraphs explanation_text).

(** [sorted(explanation.items(), key=lambda x: abs(x[1]), reverse=True)] *)
Definition factors (explanation : list (string * Float.float))
  : list (string * Float.float) :=
  sorted_reverse ExplanationGenerator.magnitude explanation.


End LoanReport.

(** ** Vocabulary for the routes and the report *)

Module ReportSpec.

Import ExplanationGenerator Spec LoanReport.

Definition is_star (c : ascii) : bool := Ascii.eqb c "*".

(** The text with every asterisk removed. *)
Fixpoint remove_stars (s : string) : string :=
  match s with
  | EmptyString => EmptyString
  | String c s' =>
      if is_star c then remove_stars s' else String c (remove_stars s')
  end.

(** A text without asterisk. *)
Fixpoint star_free (s : string) : bool :=
  match s with
  | EmptyString => true
  | String c s' => negb (is_star c) && star_free s'
  end.

(** What a paragraph of the report is: one line of text, not blank,
    without asterisk. *)
Definition paragraph_text (p : string) : bool :=
  LoanReport.stripped_nonempty p && Spec.single_line p && star_free p.

(** A line of text: not blank, without line break or asterisk. *)
Definition line_text (l : string) : Prop :=
  stripped_nonempty l = true /\ single_line l = true /\ star_free l = true.

(** The statement after the loop. *)
Definition close_paragraph (state : list string * list string) : list string :=
  match snd state with
  | _ :: _ => (fst state ++ [ String.concat " " (snd state) ])%list
  | [] => fst state
  end.



(** A float whose sign bit is clear, a zero, or NaN. *)
Definition not_negative (x : Float.float) : bool :=
  match x with
  | S754_infinity true => false
  | S754_finite true _ _ => false
  | _ => true
  end.

(** An integer that a 64-bit column of the data frame holds. *)
Definition fits_int64 (z : Z) : Prop := - 2 ^ 63 <= z < 2 ^ 63.

(** The application is one that the data frame of [predict] holds in
    numeric columns. *)
Definition in_frame (application : Application.LoanApplication) : Prop :=
  fits_int64 (Application.age application) /\
  fits_int64 (Application.credit_score application).

End ReportSpec.

(** * Facts *)

(** ** The order of binary64 numbers *)

Module FloatFacts.

Import FloatOrder.

Lemma compare_cont_Eq (p q : positive) :
  Pos.compare_cont Eq p q = (Z.pos p ?= Z.pos q).
Proof. reflexivity. Qed.

Lemma compare_key (x y : Float.float) :
  not_nan x -> not_nan y ->
  exists c, SFcompare x y = Some c /\
    match c with
    | Lt => key_lt (order_key x) (order_key y)
    | Eq => order_key x = order_key y
    | Gt => key_lt (order_key y) (order_key x)
    end.
Proof.
  unfold not_nan.
  destruct x as [sx|sx| |sx mx ex], y as [sy|sy| |sy my ey];
    simpl; try discriminate; intros _ _;
    try (destruct sx); try (destruct sy);
    try (eexists; split; [reflexivity|]; simpl; try reflexivity; lia).
  - rewrite compare_cont_Eq.
    destruct (Z.compare_spec ex ey), (Z.compare_spec (Z.pos mx) (Z.pos my));
      eexists; (split; [reflexivity|]); simpl; try lia; try congruence.
  - rewrite compare_cont_Eq.
    destruct (Z.compare_spec ex ey), (Z.compare_spec (Z.pos mx) (Z.pos my));
      eexists; (split; [reflexivity|]); simpl; try lia; try congruence.
Qed.

Lemma compare_nan_l (y : Float.float) : SFcompare S754_nan y = None.
Proof. reflexivity. Qed.

Lemma compare_nan_r (x : Float.float) : SFcompare x S754_nan = None.
Proof. destruct x; reflexivity. Qed.

Lemma not_nan_dec (x : Float.float) : not_nan x \/ x = S754_nan.
Proof. destruct x; (left; reflexivity) || (right; reflexivity). Qed.

Ltac key_arith :=
  unfold key_lt in *;
  repeat match goal with
         | |- context [order_key ?x] =>
             let a := fresh "a" in let b := fresh "b" in let c := fresh "c" in
             destruct (order_key x) as [[a b] c]
         | H : context [order_key ?x] |- _ =>
             let a := fresh "a" in let b := fresh "b" in let c := fresh "c" in
             destruct (order_key x) as [[a b] c]
         end;
  repeat match goal with
         | H : (_, _) = (_, _) |- _ => inversion H; clear H; subst
         end;
  try (intros; lia).

(** [x < y] holds exactly when neither is NaN and the keys are in order. *)
Lemma ltb_key (x y : Float.float) :
  Float.ltb x y = true <->
  not_nan x /\ not_nan y /\ key_lt (order_key x) (order_key y).
Proof.
  unfold Float.ltb, SFltb.
  destruct (not_nan_dec x) as [Hx | ->];
    [ | rewrite compare_nan_l; split; [discriminate | intros (H & _); discriminate H] ].
  destruct (not_nan_dec y) as [Hy | ->];
    [ | rewrite compare_nan_r; split; [discriminate | intros (_ & H & _); discriminate H] ].
  destruct (compare_key x y Hx Hy) as (c & -> & Hc).
  destruct c; split; try discriminate; try (intros; tauto);
    intros (_ & _ & H); exfalso; revert Hc H.
  - intros ->. key_arith.
  - key_arith.
Qed.

Lemma leb_key (x y : Float.float) :
  Float.leb x y = true <->
  not_nan x /\ not_nan y /\ ~ key_lt (order_key y) (order_key x).
Proof.
  unfold Float.leb, SFleb.
  destruct (not_nan_dec x) as [Hx | ->];
    [ | rewrite compare_nan_l; split; [discriminate | intros (H & _); discriminate H] ].
  destruct (not_nan_dec y) as [Hy | ->];
    [ | rewrite compare_nan_r; split; [discriminate | intros (_ & H & _); discriminate H] ].
  destruct (compare_key x y Hx Hy) as (c & -> & Hc).
  destruct c; split; try discriminate; try (intros; tauto);
    try (intros _; repeat split; try assumption; revert Hc).
  - intros ->. key_arith.
  - key_arith.
Qed.

Lemma eqb_key (x y : Float.float) :
  Float.eqb x y = true <->
  not_nan x /\ not_nan y /\ order_key x = order_key y.
Proof.
  unfold Float.eqb, SFeqb.
  destruct (not_nan_dec x) as [Hx | ->];
    [ | rewrite compare_nan_l; split; [discriminate | intros (H & _); discriminate H] ].
  destruct (not_nan_dec y) as [Hy | ->];
    [ | rewrite compare_nan_r; split; [discriminate | intros (_ & H & _); discriminate H] ].
  destruct (compare_key x y Hx Hy) as (c & -> & Hc).
  destruct c; split; try discriminate; try (intros; tauto);
    intros (_ & _ & H); exfalso; revert Hc; rewrite H; key_arith.
Qed.

Lemma ltb_asym (x y : Float.float) :
  Float.ltb x y = true -> Float.ltb y x = false.
Proof.
  intros H. apply not_true_is_false. intros H'.
  apply ltb_key in H, H'. destruct H as (_ & _ & H), H' as (_ & _ & H').
  revert H H'. key_arith.
Qed.

Lemma ltb_leb (x y : Float.float) :
  Float.ltb x y = true -> Float.leb x y = true.
Proof.
  intros H. apply ltb_key in H. apply leb_key.
  destruct H as (Hx & Hy & H). repeat split; trivial. revert H. key_arith.
Qed.

(** Totality away from NaN: when [x < y] fails, [y <= x] holds. *)
Lemma not_ltb_leb (x y : Float.float) :
  not_nan x -> not_nan y -> Float.ltb x y = false -> Float.leb y x = true.
Proof.
  intros Hx Hy H. apply leb_key. repeat split; trivial.
  intros K. assert (Float.ltb x y = true) by (apply ltb_key; auto). congruence.
Qed.


Lemma leb_trans (x y z : Float.float) :
  Float.leb x y = true -> Float.leb y z = true -> Float.leb x z = true.
Proof.
  intros H1 H2. apply leb_key in H1, H2. apply leb_key.
  destruct H1 as (Hx & _ & H1), H2 as (_ & Hz & H2).
  repeat split; trivial. revert H1 H2. key_arith.
Qed.

Lemma ltb_leb_trans (x y z : Float.float) :
  Float.ltb x y = true -> Float.leb y z = true -> Float.ltb x z = true.
Proof.
  intros H1 H2. apply ltb_key in H1. apply leb_key in H2. apply ltb_key.
  destruct H1 as (Hx & _ & H1), H2 as (_ & Hz & H2).
  repeat split; trivial. revert H1 H2. key_arith.
Qed.

Lemma leb_refl (x : Float.float) : not_nan x -> Float.leb x x = true.
Proof.
  intros Hx. apply leb_key. repeat split; trivial. key_arith.
Qed.

Lemma leb_antisym (x y : Float.float) :
  Float.leb x y = true -> Float.leb y x = true -> Float.eqb x y = true.
Proof.
  intros H1 H2. apply leb_key in H1, H2. apply eqb_key.
  destruct H1 as (Hx & Hy & H1), H2 as (_ & _ & H2).
  repeat split; trivial. revert H1 H2. key_arith. intros. f_equal; [f_equal|]; lia.
Qed.

Lemma gtb_not_nan (x y : Float.float) : Float.gtb x y = true -> not_nan x.
Proof. unfold Float.gtb. intros H. apply ltb_key in H. tauto. Qed.

Lemma abs_not_nan (x : Float.float) : not_nan x -> not_nan (Float.abs x).
Proof. destruct x; simpl; trivial. Qed.

Lemma ltb_trans (x y z : Float.float) :
  Float.ltb x y = true -> Float.ltb y z = true -> Float.ltb x z = true.
Proof.
  intros H1 H2. apply ltb_leb_trans with y; trivial. now apply ltb_leb.
Qed.

Lemma leb_ltb_trans (x y z : Float.float) :
  Float.leb x y = true -> Float.ltb y z = true -> Float.ltb x z = true.
Proof.
  intros H1 H2. apply leb_key in H1. apply ltb_key in H2. apply ltb_key.
  destruct H1 as (Hx & _ & H1), H2 as (_ & Hz & H2).
  repeat split; trivial. revert H1 H2. key_arith.
Qed.

Lemma ltb_not_nan_l (x y : Float.float) : Float.ltb x y = true -> not_nan x.
Proof. intros H. apply ltb_key in H. tauto. Qed.

Lemma ltb_not_nan_r (x y : Float.float) : Float.ltb x y = true -> not_nan y.
Proof. intros H. apply ltb_key in H. tauto. Qed.

(** Rounding a non-negative significand never produces NaN. *)
Lemma shr_1_nonneg (mrs : shr_record) :
  0 <= shr_m mrs -> 0 <= shr_m (shr_1 mrs).
Proof.
  destruct mrs as [m r s]. simpl.
  destruct m as [|p|p]; try destruct p; simpl; lia.
Qed.

Lemma iter_shr_1_nonneg (p : positive) (mrs : shr_record) :
  0 <= shr_m mrs -> 0 <= shr_m (iter_pos shr_1 p mrs).
Proof.
  revert mrs. induction p; intros mrs H; simpl; auto using shr_1_nonneg.
Qed.

Lemma shr_fexp_nonneg (prec emax m e : Z) (l : location) :
  0 <= m -> 0 <= shr_m (fst (shr_fexp prec emax m e l)).
Proof.
  intros H. unfold shr_fexp, shr.
  assert (H0 : 0 <= shr_m (shr_record_of_loc m l))
    by (destruct l as [|[]]; exact H).
  destruct (fexp prec emax (Zdigits2 m + e) - e); simpl; trivial.
  now apply iter_shr_1_nonneg.
Qed.

Lemma round_nearest_even_nonneg (m : Z) (l : location) :
  0 <= m -> 0 <= round_nearest_even m l.
Proof.
  intros H. destruct l as [|[]]; simpl; try lia.
  destruct (Z.even m); lia.
Qed.

Lemma binary_round_aux_not_nan (prec emax : Z) (s : bool) (m e : Z) (l : location) :
  0 <= m -> not_nan (binary_round_aux prec emax s m e l).
Proof.
  intros H. unfold binary_round_aux.
  pose proof (shr_fexp_nonneg prec emax m e l H) as H1.
  destruct (shr_fexp prec emax m e l) as [mrs' e']. simpl in H1.
  pose proof (shr_fexp_nonneg prec emax _ e' loc_Exact
                (round_nearest_even_nonneg _ (loc_of_shr_record mrs') H1)) as H2.
  destruct (shr_fexp prec emax _ e' loc_Exact) as [mrs'' e'']. simpl in H2.
  destruct (shr_m mrs''); try lia; try reflexivity.
  destruct (e'' <=? emax - prec); reflexivity.
Qed.

Lemma mul_hundred_not_nan (x : Float.float) :
  not_nan x -> not_nan (Float.mul x Float.hundred).
Proof.
  destruct x as [s|s| |s m e]; simpl; trivial; try discriminate.
  intros _. apply binary_round_aux_not_nan. lia.
Qed.

End FloatFacts.

(** ** [sorted], [max] and [min] *)

Module SortFacts.

Import FloatOrder FloatFacts Spec.

Local Open Scope list_scope.

Section SortedReverse.

Context {A : Type}.
Variable key : A -> Float.float.

Lemma insert_reverse_perm (x : A) (l : list A) :
  Permutation (x :: l) (insert_reverse key x l).
Proof.
  induction l as [|y l IH]; simpl.
  - apply Permutation_refl.
  - destruct (Float.ltb (key x) (key y)).
    + apply perm_trans with (y :: x :: l); [apply perm_swap|].
      now apply perm_skip.
    + apply Permutation_refl.
Qed.

Lemma sorted_reverse_perm (l : list A) :
  Permutation l (sorted_reverse key l).
Proof.
  induction l as [|x l IH]; simpl.
  - apply perm_nil.
  - apply perm_trans with (x :: sorted_reverse key l).
    + now apply perm_skip.
    + apply insert_reverse_perm.
Qed.








End SortedReverse.

Section FirstExtreme.

Context {A : Type}.
Variable better : A -> A -> bool.
Variable dom : A -> Prop.
Hypothesis better_trans :
  forall a b c, better a b = true -> better b c = true -> better a c = true.
Hypothesis better_neg_trans :
  forall a b c, dom a -> dom b -> dom c ->
    better a b = true -> better c b = false -> better a c = true.

Lemma fold_first_extreme (l before mid : list A) (best : A) :
  Forall dom (before ++ best :: mid ++ l) ->
  Forall (fun e => better best e = true) before ->
  Forall (fun e => better e best = false) mid ->
  first_extreme better (before ++ best :: mid ++ l)
    (fold_left (fun best item => if better item best then item else best)
               l best).
Proof.
  revert before mid best.
  induction l as [|y l IH]; intros before mid best Hd Hb Hm; simpl.
  - exists before, mid. rewrite app_nil_r. auto.
  - assert (Hdom : forall e, In e (before ++ best :: mid ++ y :: l) -> dom e)
      by (now apply Forall_forall).
    assert (Dbest : dom best) by (apply Hdom; rewrite in_app_iff; simpl; auto).
    assert (Dy : dom y).
    { apply Hdom. rewrite in_app_iff. simpl. right. right.
      rewrite in_app_iff. simpl. auto. }
    destruct (better y best) eqn:E.
    + replace (before ++ best :: mid ++ y :: l)
        with ((before ++ best :: mid) ++ y :: [] ++ l)
        by (rewrite <- app_assoc; reflexivity).
      apply IH.
      * rewrite <- app_assoc. exact Hd.
      * rewrite Forall_forall in Hb, Hm. apply Forall_forall. intros e He.
        apply in_app_or in He. destruct He as [He | [<- | He]]; auto.
        -- apply better_trans with best; auto.
        -- apply better_neg_trans with best; auto.
           apply Hdom. rewrite in_app_iff. simpl. right. right.
           rewrite in_app_iff. auto.
      * constructor.
    + replace (before ++ best :: mid ++ y :: l)
        with (before ++ best :: (mid ++ [y]) ++ l)
        by (rewrite <- app_assoc; reflexivity).
      apply IH; trivial.
      * rewrite <- app_assoc. exact Hd.
      * apply Forall_app. split; trivial. constructor; [exact E | constructor].
Qed.

End FirstExtreme.

Section MaxMin.

Context {A : Type}.
Variable key : A -> Float.float.

Lemma max_by_first_extreme (l : list A) :
  l <> [] -> Forall (fun e => not_nan (key e)) l ->
  exists x, max_by key l = Ok x /\ first_extreme (greater key) l x.
Proof.
  destruct l as [|x l]; [congruence|]. intros _ Hn.
  eexists. split; [reflexivity|].
  apply (fold_first_extreme (greater key) (fun e => not_nan (key e))) with (before := []) (mid := []);
    simpl; trivial; unfold greater, Float.gtb.
  - intros a b c H1 H2. now apply ltb_trans with (key b).
  - intros a b c Ha Hb Hc H1 H2. apply leb_ltb_trans with (key b); trivial.
    now apply not_ltb_leb.
Qed.

Lemma min_by_first_extreme (l : list A) :
  l <> [] -> Forall (fun e => not_nan (key e)) l ->
  exists x, min_by key l = Ok x /\ first_extreme (less key) l x.
Proof.
  destruct l as [|x l]; [congruence|]. intros _ Hn.
  eexists. split; [reflexivity|].
  apply (fold_first_extreme (less key) (fun e => not_nan (key e))) with (before := []) (mid := []);
    simpl; trivial; unfold less.
  - intros a b c H1 H2. now apply ltb_trans with (key b).
  - intros a b c Ha Hb Hc H1 H2. apply ltb_leb_trans with (key b); trivial.
    now apply not_ltb_leb.
Qed.


End MaxMin.

End SortFacts.

(** ** Messages as runs of lines *)

Module TextFacts.

Import Py FloatOrder FloatFacts SortFacts Spec ExplanationGenerator.

Lemma append_assoc (a b c : string) : (a ++ b) ++ c = a ++ b ++ c.
Proof. induction a as [|x a IH]; simpl; [reflexivity | now rewrite IH]. Qed.

Lemma append_nil_r (a : string) : a ++ "" = a.
Proof. induction a as [|x a IH]; simpl; [reflexivity | now rewrite IH]. Qed.

Lemma lines_app (a b : list string) :
  lines (a ++ b)%list = lines a ++ lines b.
Proof.
  induction a as [|l a IH]; simpl.
  - reflexivity.
  - now rewrite IH, !append_assoc.
Qed.

(** A loop that appends one line per item appends the run of those
    lines. *)
Lemma fold_lines {A : Type} (f : A -> string) (l : list A) (message : string) :
  fold_left (fun message x => message ++ lines [f x]) l message
  = message ++ lines (map f l).
Proof.
  revert message. induction l as [|x l IH]; intros message; simpl.
  - now rewrite append_nil_r.
  - rewrite IH. now rewrite !append_assoc.
Qed.

Lemma prefix_append (n a b : string) :
  String.prefix n a = true -> String.prefix n (a ++ b) = true.
Proof.
  revert a. induction n as [|c n IH]; intros a H.
  - destruct (a ++ b); reflexivity.
  - destruct a as [|c' a]; simpl in *; [discriminate|].
    destruct (ascii_dec c c'); [now apply IH | discriminate].
Qed.

Lemma contains_append_l (n a b : string) :
  contains n a = true -> contains n (a ++ b) = true.
Proof.
  induction a as [|c a IH]; intros H.
  - simpl in H. destruct n; [|discriminate]. destruct b; reflexivity.
  - cbn [contains] in H. cbn [append contains].
    destruct (String.prefix n (String c a)) eqn:E.
    + change (String c (a ++ b)) with (String c a ++ b).
      now rewrite (prefix_append _ _ _ E).
    + destruct (String.prefix n (String c (a ++ b))); [reflexivity|].
      now apply IH.
Qed.

Lemma contains_append_r (n a b : string) :
  contains n b = true -> contains n (a ++ b) = true.
Proof.
  intros H. induction a as [|c a IH]; [exact H|].
  cbn [append contains].
  destruct (String.prefix n (String c (a ++ b))); [reflexivity | exact IH].
Qed.

(** A phrase found in one line of a message is found in the message. *)
Lemma contains_lines (n l : string) (ls : list string) :
  In l ls -> contains n l = true -> contains n (lines ls) = true.
Proof.
  intros Hin Hc. induction ls as [|x ls IH]; [destruct Hin|].
  cbn [lines]. destruct Hin as [-> | Hin].
  - now apply contains_append_l.
  - do 2 apply contains_append_r. now apply IH.
Qed.

(** *** The loan-decision explanation *)

Lemma generate_loan_explanation_lines
  (application : Application.LoanApplication) (prediction : PredictionResponse) :
  generate_loan_explanation application prediction
  = lines (loan_lines application prediction).
Proof.
  unfold generate_loan_explanation, loan_lines.
  destruct (approved prediction);
    rewrite fold_lines, !lines_app; now rewrite append_assoc.
Qed.

(** *** The bias report *)

Lemma max_by_nonempty {A : Type} (key : A -> Float.float) (l : list A) :
  l <> [] -> exists x, max_by key l = Ok x.
Proof. destruct l; [congruence | eexists; reflexivity]. Qed.

Lemma min_by_nonempty {A : Type} (key : A -> Float.float) (l : list A) :
  l <> [] -> exists x, min_by key l = Ok x.
Proof. destruct l; [congruence | eexists; reflexivity]. Qed.

(** The two conditionals of the report select by [severity]. *)
Lemma severity_select {B : Type} (m : Float.float) (h mo lo : B) :
  (if Float.gtb m Float.ten then h
   else if Float.gtb m Float.five then mo else lo)
  = match severity m with high => h | moderate => mo | low => lo end.
Proof.
  unfold severity.
  destruct (Float.gtb m Float.ten) eqn:E10; [reflexivity|].
  destruct (Float.gtb m Float.five) eqn:E5; [|reflexivity].
  rewrite (not_ltb_leb Float.ten m); [reflexivity | reflexivity | | exact E10].
  exact (gtb_not_nan _ _ E5).
Qed.

Lemma attribute_details_lines
  (rates : list (string * Float.float)) (disparity : Float.float)
  (message : string) (highest lowest : string * Float.float) :
  max_by snd rates = Ok highest -> min_by snd rates = Ok lowest ->
  attribute_details rates disparity message
  = Ok (message
          ++ lines ([disparity_line disparity; highest_line highest;
                     lowest_line lowest]
                    ++ (if flagged disparity then [regulatory_concern]
                        else []))%list).
Proof.
  intros Hmax Hmin. unfold attribute_details, flagged.
  rewrite Hmax, Hmin. cbn [bind]. f_equal.
  destruct (Float.gtb (Float.abs disparity) Float.five);
    cbn [lines app]; now rewrite !append_assoc.
Qed.

Lemma attribute_details_empty (disparity : Float.float) (message : string) :
  attribute_details [] disparity message = Raise ValueError.
Proof. reflexivity. Qed.

Lemma attribute_section_details
  (fairness_data : FairnessResponse) (message : string)
  (ad : string * Float.float) (rates : list (string * Float.float)) :
  rates_of fairness_data (fst ad) = Some rates ->
  attribute_section fairness_data message ad
  = bind (attribute_details rates (snd ad)
            (message ++ lines ["**" ++ fst ad ++ "**:"]))
         (fun message => Ok (message ++ lines [""])).
Proof.
  unfold rates_of, attribute_section.
  destruct (String.eqb (fst ad) "Gender");
    [intros [= <-]; reflexivity|].
  destruct (String.eqb (fst ad) "Race");
    [intros [= <-]; reflexivity|].
  destruct (String.eqb (fst ad) "Age Group");
    [intros [= <-]; reflexivity|].
  destruct (String.eqb (fst ad) "Disability Status");
    [intros [= <-]; reflexivity|].
  discriminate.
Qed.

Lemma attribute_section_lines
  (fairness_data : FairnessResponse) (ad : string * Float.float)
  (rates : list (string * Float.float)) :
  rates_of fairness_data (fst ad) = Some rates -> rates <> [] ->
  exists ls,
    section_of fairness_data ad ls /\
    forall message,
      attribute_section fairness_data message ad = Ok (message ++ lines ls).
Proof.
  intros Hr Hne.
  destruct (max_by_nonempty snd rates Hne) as (highest & Hmax).
  destruct (min_by_nonempty snd rates Hne) as (lowest & Hmin).
  exists (section_lines ad highest lowest). split.
  - exists rates, highest, lowest. auto.
  - intros message.
    rewrite (attribute_section_details _ _ _ _ Hr).
    rewrite (attribute_details_lines _ _ _ _ _ Hmax Hmin). cbn [bind].
    f_equal. unfold section_lines.
    rewrite !append_assoc. f_equal.
    change ([("**" ++ fst ad ++ "**:")%string; disparity_line (snd ad);
             highest_line highest; lowest_line lowest])
      with ([("**" ++ fst ad ++ "**:")%string]
              ++ [disparity_line (snd ad); highest_line highest;
                  lowest_line lowest])%list.
    rewrite <- !app_assoc, !lines_app, !append_assoc. reflexivity.
Qed.

Lemma attribute_section_raises
  (fairness_data : FairnessResponse) (message : string)
  (ad : string * Float.float) :
  rates_of fairness_data (fst ad) = Some [] ->
  attribute_section fairness_data message ad = Raise ValueError.
Proof.
  intros Hr. now rewrite (attribute_section_details _ _ _ _ Hr).
Qed.

Lemma for_each_sections
  (fairness_data : FairnessResponse) (l : list (string * Float.float)) :
  Forall (fun ad => exists rates,
            rates_of fairness_data (fst ad) = Some rates /\ rates <> []) l ->
  exists sections,
    Forall2 (section_of fairness_data) l sections /\
    forall message,
      for_each (attribute_section fairness_data) l message
      = Ok (message ++ lines (List.concat sections)).
Proof.
  induction 1 as [|ad l (rates & Hr & Hne) _ (sections & Hs & Hf)].
  - exists []. split; [constructor|]. intros message. cbn.
    now rewrite append_nil_r.
  - destruct (attribute_section_lines _ _ _ Hr Hne) as (ls & Hls & Ha).
    exists (ls :: sections). split; [now constructor|].
    intros message. cbn [for_each]. rewrite Ha. cbn [bind].
    rewrite Hf. cbn [List.concat]. now rewrite lines_app, append_assoc.
Qed.

Lemma for_each_ok_nonempty
  (fairness_data : FairnessResponse) (l : list (string * Float.float))
  (message result : string) :
  for_each (attribute_section fairness_data) l message = Ok result ->
  Forall (fun ad => rates_of fairness_data (fst ad) <> Some []) l.
Proof.
  revert message. induction l as [|ad l IH]; intros message H.
  - constructor.
  - cbn [for_each] in H.
    destruct (attribute_section fairness_data message ad) as [m'|e] eqn:E;
      [|discriminate].
    cbn [bind] in H. constructor; [|now apply IH with m'].
    intros Hr. rewrite (attribute_section_raises _ _ _ Hr) in E. discriminate.
Qed.

Lemma rates_of_disparities (fairness_data : FairnessResponse) :
  rates_nonempty fairness_data ->
  Forall (fun ad => exists rates,
            rates_of fairness_data (fst ad) = Some rates /\ rates <> [])
         (disparities fairness_data).
Proof.
  intros (Hg & Hr & Ha & Hd). unfold disparities.
  repeat constructor; eexists; (split; [reflexivity | assumption]).
Qed.

Lemma disparities_rates_nonempty (fairness_data : FairnessResponse) :
  Forall (fun ad => rates_of fairness_data (fst ad) <> Some [])
         (disparities fairness_data) ->
  rates_nonempty fairness_data.
Proof.
  unfold disparities. intros H.
  inversion_clear H as [|? ? Hg H1]. inversion_clear H1 as [|? ? Hr H2].
  inversion_clear H2 as [|? ? Ha H3]. inversion_clear H3 as [|? ? Hd _].
  unfold rates_of in *. cbn in *.
  repeat split; congruence.
Qed.

Lemma Forall_perm {A : Type} (P : A -> Prop) (l l' : list A) :
  Permutation l l' -> Forall P l -> Forall P l'.
Proof.
  intros Hp H. apply Forall_forall. intros x Hx.
  rewrite Forall_forall in H. apply H.
  apply Permutation_in with l'; [now apply Permutation_sym | exact Hx].
Qed.

Lemma max_magnitude_ok (fairness_data : FairnessResponse) :
  exists m, max_magnitude fairness_data = Ok m.
Proof. eexists. reflexivity. Qed.

(** The report of a well-formed input: its lines. *)
Lemma generate_bias_explanation_lines (fairness_data : FairnessResponse) :
  rates_nonempty fairness_data ->
  exists m sections,
    max_magnitude fairness_data = Ok m /\
    Forall2 (section_of fairness_data)
            (sorted_disparities fairness_data) sections /\
    generate_bias_explanation fairness_data
    = Ok (lines (report_lines (severity m) sections)).
Proof.
  intros Hne.
  destruct (max_magnitude_ok fairness_data) as (m & Hm).
  destruct (for_each_sections fairness_data (sorted_disparities fairness_data))
    as (sections & Hs & Hf).
  { apply Forall_perm with (disparities fairness_data).
    - apply sorted_reverse_perm.
    - now apply rates_of_disparities. }
  exists m, sections. repeat split; trivial.
  unfold generate_bias_explanation.
  fold (sorted_disparities fairness_data). fold (max_magnitude fairness_data).
  rewrite Hm. cbn [bind]. rewrite Hf. cbn [bind].
  rewrite !severity_select. f_equal. unfold report_lines.
  rewrite !lines_app.
  destruct (severity m); cbn [alert_of conclusion_of lines];
    rewrite !append_assoc; reflexivity.
Qed.

(** A report is produced only for a well-formed input. *)
Lemma generate_bias_explanation_ok (fairness_data : FairnessResponse)
  (message : string) :
  generate_bias_explanation fairness_data = Ok message ->
  rates_nonempty fairness_data.
Proof.
  unfold generate_bias_explanation.
  fold (sorted_disparities fairness_data). fold (max_magnitude fairness_data).
  destruct (max_magnitude_ok fairness_data) as (m & ->). cbn [bind].
  destruct (for_each _ _ _) as [m'|e] eqn:E; [|discriminate]. intros _.
  apply for_each_ok_nonempty in E.
  apply disparities_rates_nonempty.
  apply Forall_perm with (sorted_disparities fairness_data); trivial.
  apply Permutation_sym, sorted_reverse_perm.
Qed.

(** *** The remediation strategy *)

Lemma insert_reverse_cons {A : Type} (key : A -> Float.float) (x : A)
  (l : list A) :
  exists first rest, insert_reverse key x l = first :: rest.
Proof.
  destruct l as [|y l]; simpl; [eauto|].
  destruct (Float.ltb (key x) (key y)); eauto.
Qed.

Lemma most_biased_first (fairness_data : FairnessResponse) :
  exists first rest,
    sorted_disparities fairness_data = first :: rest /\
    most_biased fairness_data = Ok (fst first).
Proof.
  unfold most_biased, sorted_disparities, disparities.
  cbn [sorted_reverse].
  match goal with
  | |- context [insert_reverse ?k ?x ?l] =>
      destruct (insert_reverse_cons k x l) as (first & rest & ->)
  end.
  eauto.
Qed.

Lemma generate_remediation_strategy_lines
  (fairness_data : FairnessResponse) (attribute : string) :
  most_biased fairness_data = Ok attribute ->
  generate_remediation_strategy fairness_data
  = Ok (lines (strategy_lines attribute)).
Proof.
  intros H. unfold generate_remediation_strategy. rewrite H. cbn [bind].
  f_equal. unfold strategy_lines, remediation_head.
  rewrite !lines_app. cbn [lines]. now rewrite !append_assoc.
Qed.

(** *** Disparities without NaN *)

Lemma disparities_magnitude_not_nan (fairness_data : FairnessResponse) :
  disparities_not_nan fairness_data ->
  Forall (fun ad => not_nan (magnitude ad)) (disparities fairness_data).
Proof.
  intros (Hg & Hr & Ha & Hd). unfold disparities, magnitude.
  repeat constructor; cbn [snd];
    apply abs_not_nan, mul_hundred_not_nan; assumption.
Qed.

(** With keys other than NaN, the first extreme for [>] bounds the list
    from above, and the first extreme for [<] bounds it from below. *)
Lemma first_greater_bounds {A : Type} (key : A -> Float.float)
  (l : list A) (x : A) :
  Forall (fun e => not_nan (key e)) l ->
  first_extreme (greater key) l x ->
  In x l /\ Forall (fun e => Float.leb (key e) (key x) = true) l.
Proof.
  intros Hn (before & after & -> & Hb & Ha).
  split; [rewrite in_app_iff; simpl; auto|].
  assert (Hx : not_nan (key x)).
  { rewrite Forall_forall in Hn. apply Hn. rewrite in_app_iff. simpl. auto. }
  rewrite Forall_forall in Hn, Hb, Ha. apply Forall_forall. intros e He.
  pose proof (Hn e He) as Hne.
  apply in_app_or in He. destruct He as [He | [<- | He]].
  - apply ltb_leb. exact (Hb e He).
  - now apply leb_refl.
  - apply not_ltb_leb; trivial. exact (Ha e He).
Qed.

Lemma first_less_bounds {A : Type} (key : A -> Float.float)
  (l : list A) (x : A) :
  Forall (fun e => not_nan (key e)) l ->
  first_extreme (less key) l x ->
  In x l /\ Forall (fun e => Float.leb (key x) (key e) = true) l.
Proof.
  intros Hn (before & after & -> & Hb & Ha).
  split; [rewrite in_app_iff; simpl; auto|].
  assert (Hx : not_nan (key x)).
  { rewrite Forall_forall in Hn. apply Hn. rewrite in_app_iff. simpl. auto. }
  rewrite Forall_forall in Hn, Hb, Ha. apply Forall_forall. intros e He.
  pose proof (Hn e He) as Hne.
  apply in_app_or in He. destruct He as [He | [<- | He]].
  - apply ltb_leb. exact (Hb e He).
  - now apply leb_refl.
  - apply not_ltb_leb; trivial. exact (Ha e He).
Qed.

End TextFacts.

(** ** Messages split at their line breaks *)

Module LineFacts.
Import Py FloatOrder FloatFacts SortFacts TextFacts Spec ExplanationGenerator.

Lemma single_line_append (a b : string) :
  single_line (a ++ b) = single_line a && single_line b.
Proof.
  induction a as [|c a IH]; simpl; [reflexivity|].
  now rewrite IH, andb_assoc.
Qed.

Lemma split_lines_cons (s : string) : exists l ls, split_lines s = l :: ls.
Proof.
  destruct s as [|c s]; simpl; [eauto|].
  destruct (is_newline c); [eauto|].
  destruct (split_lines s); eauto.
Qed.

Lemma split_lines_append (a b : string) :
  single_line a = true ->
  split_lines (a ++ nl ++ b) = a :: split_lines b.
Proof.
  induction a as [|c a IH]; intros H.
  - reflexivity.
  - simpl in H. apply andb_true_iff in H. destruct H as (Hc & Ha).
    cbn [append split_lines]. apply negb_true_iff in Hc. rewrite Hc.
    now rewrite (IH Ha).
Qed.

(** The lines of a message made of single lines are those lines, followed
    by the empty text after the last line break. *)
Lemma split_lines_lines (ls : list string) :
  Forall (fun l => single_line l = true) ls ->
  split_lines (lines ls) = (ls ++ [ EmptyString ])%list.
Proof.
  induction 1 as [|l ls Hl _ IH]; [reflexivity|].
  cbn [lines app]. rewrite split_lines_append; trivial. now rewrite IH.
Qed.

(** *** Formatted numbers hold no line break *)

Lemma single_line_uint (d : Decimal.uint) :
  single_line (NilEmpty.string_of_uint d) = true.
Proof. induction d; simpl; trivial. Qed.

Lemma single_line_uint_zero (d : Decimal.uint) :
  single_line (NilZero.string_of_uint d) = true.
Proof. destruct d; try reflexivity; apply (single_line_uint (_ _)). Qed.

Lemma single_line_digits_of (z : Z) : single_line (Format.digits_of z) = true.
Proof. apply single_line_uint_zero. Qed.

Lemma single_line_str_int (z : Z) : single_line (Format.str_int z) = true.
Proof.
  unfold Format.str_int, NilZero.string_of_int.
  destruct (Z.to_int z); [apply single_line_uint_zero|].
  simpl. apply single_line_uint_zero.
Qed.

Lemma single_line_zeros (n : nat) : single_line (Format.zeros n) = true.
Proof. induction n; simpl; trivial. Qed.

Lemma single_line_rev_string (s acc : string) :
  single_line s = true -> single_line acc = true ->
  single_line (Format.rev_string s acc) = true.
Proof.
  revert acc. induction s as [|c s IH]; intros acc Hs Ha; simpl; trivial.
  simpl in Hs. apply andb_true_iff in Hs. destruct Hs as (Hc & Hs).
  apply IH; trivial. simpl. now rewrite Hc.
Qed.

Lemma single_line_group_rev (s : string) (k : nat) (acc : string) :
  single_line s = true -> single_line acc = true ->
  single_line (Format.group_rev s k acc) = true.
Proof.
  revert k acc. induction s as [|c s IH]; intros k acc Hs Ha; simpl; trivial.
  simpl in Hs. apply andb_true_iff in Hs. destruct Hs as (Hc & Hs).
  destruct k as [|[|[|[|k]]]]; apply IH; trivial; simpl; now rewrite Hc.
Qed.

Lemma single_line_fixed (grouping : bool) (digits : nat) (x : Float.float) :
  single_line (Format.fixed grouping digits x) = true.
Proof.
  destruct x as [s|s| |s m e]; cbn [Format.fixed].
  - rewrite !single_line_append, single_line_zeros. now destruct s.
  - now destruct s.
  - reflexivity.
  - rewrite !single_line_append. unfold Format.pad_zeros.
    rewrite single_line_append, single_line_zeros, single_line_digits_of.
    assert (single_line
              (if grouping
               then Format.group_thousands
                      (Format.digits_of
                         (Format.scaled digits m e / 10 ^ Z.of_nat digits))
               else Format.digits_of
                      (Format.scaled digits m e / 10 ^ Z.of_nat digits))
            = true) as ->.
    { destruct grouping; [|apply single_line_digits_of].
      unfold Format.group_thousands.
      apply single_line_group_rev; trivial.
      apply single_line_rev_string; trivial. apply single_line_digits_of. }
    now destruct s.
Qed.

Lemma is_newline_to_upper (c : ascii) :
  is_newline (to_upper c) = is_newline c.
Proof.
  destruct c as [[] [] [] [] [] [] [] []]; reflexivity.
Qed.

Lemma is_newline_to_lower (c : ascii) :
  is_newline (to_lower c) = is_newline c.
Proof.
  destruct c as [[] [] [] [] [] [] [] []]; reflexivity.
Qed.

Lemma single_line_title_from (b : bool) (s : string) :
  single_line (title_from b s) = single_line s.
Proof.
  revert b. induction s as [|c s IH]; intros b; simpl; trivial.
  rewrite IH. destruct b;
    [rewrite is_newline_to_lower | rewrite is_newline_to_upper]; reflexivity.
Qed.

Lemma single_line_replace_underscore (s : string) :
  single_line (replace "_" " " s) = single_line s.
Proof.
  induction s as [|c s IH]; simpl; trivial.
  rewrite IH. destruct (Ascii.eqb_spec c "_") as [-> |]; reflexivity.
Qed.

(** *** The lines of the three documents *)

Lemma single_line_factor_name (factor : string) :
  single_line (factor_name factor) = single_line factor.
Proof.
  unfold factor_name, title.
  now rewrite single_line_title_from, single_line_replace_underscore.
Qed.

Lemma single_line_f1 (x : Float.float) : single_line (Format.f1 x) = true.
Proof. apply single_line_fixed. Qed.

Lemma single_line_money (x : Float.float) :
  single_line (Format.money x) = true.
Proof. apply single_line_fixed. Qed.

Lemma single_line_bullets (approved : bool) (l : list (string * Float.float)) :
  Forall (fun fi => single_line (fst fi) = true) l ->
  Forall (fun s => single_line s = true) (map (factor_bullet approved) l).
Proof.
  induction 1 as [|fi l H _ IH]; constructor; trivial.
  unfold factor_bullet. fold (factor_name (fst fi)).
  rewrite !single_line_append, single_line_factor_name, H, single_line_f1.
  now destruct approved.
Qed.

Lemma in_firstn {A : Type} (n : nat) (l : list A) (x : A) :
  In x (firstn n l) -> In x l.
Proof.
  revert l. induction n as [|n IH]; intros [|y l]; simpl; try tauto.
  intros [-> | H]; auto.
Qed.

Lemma top_factors_incl (prediction : PredictionResponse)
  (fi : string * Float.float) :
  In fi (top_factors prediction) -> In fi (explanation prediction).
Proof.
  unfold top_factors. intros H. apply in_firstn in H.
  apply Permutation_in with (sorted_reverse snd (explanation prediction));
    trivial.
  apply Permutation_sym, sorted_reverse_perm.
Qed.

Lemma loan_lines_factor_bullets (application : Application.LoanApplication)
  (prediction : PredictionResponse) :
  loan_lines application prediction
  = ((if approved prediction
      then approved_opening
             (Float.mul (approval_probability prediction) Float.hundred)
      else denied_opening
             (Float.mul (approval_probability prediction) Float.hundred))
       ++ map (factor_bullet (approved prediction)) (top_factors prediction)
       ++ (if approved prediction then approved_closing application
           else denied_closing))%list.
Proof. unfold loan_lines. now destruct (approved prediction). Qed.

Lemma single_line_loan_lines (application : Application.LoanApplication)
  (prediction : PredictionResponse) :
  Forall (fun fi => single_line (fst fi) = true) (explanation prediction) ->
  Forall (fun s => single_line s = true) (loan_lines application prediction).
Proof.
  intros H.
  assert (Ht : Forall (fun fi => single_line (fst fi) = true)
                      (top_factors prediction)).
  { rewrite Forall_forall in H. apply Forall_forall. intros fi Hfi.
    apply H. now apply top_factors_incl. }
  rewrite loan_lines_factor_bullets.
  apply Forall_app. split; [|apply Forall_app; split].
  - destruct (approved prediction); repeat constructor;
      rewrite !single_line_append, single_line_f1; reflexivity.
  - now apply single_line_bullets.
  - destruct (approved prediction); repeat constructor.
    unfold stability_statement.
    rewrite !single_line_append, single_line_str_int, single_line_money.
    reflexivity.
Qed.

(** Split at its line breaks, the loan-decision explanation gives back
    its lines when no factor name holds a line break. *)
Lemma split_generate_loan_explanation
  (application : Application.LoanApplication)
  (prediction : PredictionResponse) :
  Forall (fun fi => single_line (fst fi) = true) (explanation prediction) ->
  split_lines (generate_loan_explanation application prediction)
  = (loan_lines application prediction ++ [ EmptyString ])%list.
Proof.
  intros H. rewrite generate_loan_explanation_lines.
  apply split_lines_lines. now apply single_line_loan_lines.
Qed.

Lemma prefix_empty (s : string) : String.prefix EmptyString s = true.
Proof. destruct s; reflexivity. Qed.

Lemma is_bullet_factor_bullet (approved : bool) (fi : string * Float.float) :
  is_bullet (factor_bullet approved fi) = true.
Proof.
  unfold is_bullet, factor_bullet. cbn [append String.prefix].
  destruct (ascii_dec "-" "-"); [|congruence].
  destruct (ascii_dec " " " "); [|congruence].
  apply prefix_empty.
Qed.

Lemma bullets_are_bullets (approved : bool) (l : list (string * Float.float)) :
  filter is_bullet (map (factor_bullet approved) l)
  = map (factor_bullet approved) l.
Proof.
  induction l as [|fi l IH]; [reflexivity|].
  cbn [map filter]. now rewrite is_bullet_factor_bullet, IH.
Qed.

Lemma bullet_loan_lines (application : Application.LoanApplication)
  (prediction : PredictionResponse) :
  filter is_bullet (loan_lines application prediction)
  = map (factor_bullet (approved prediction)) (top_factors prediction).
Proof.
  rewrite loan_lines_factor_bullets, !filter_app, bullets_are_bullets.
  destruct (approved prediction); cbn [filter]; now rewrite app_nil_r.
Qed.

Lemma single_line_strategy_lines (attribute : string) :
  single_line attribute = true ->
  Forall (fun s => single_line s = true) (strategy_lines attribute).
Proof.
  intros H. unfold strategy_lines.
  apply Forall_app. split; [repeat constructor|].
  apply Forall_app. split; [|repeat constructor].
  repeat constructor. unfold focus_sentence.
  now rewrite !single_line_append, H.
Qed.

Lemma fold_choice_in {A : Type} (better : A -> A -> bool) (l : list A) (x : A) :
  In (fold_left (fun best item => if better item best then item else best)
                l x)
     (x :: l).
Proof.
  revert x. induction l as [|y l IH]; intros x; simpl; [auto|].
  destruct (IH (if better y x then y else x)) as [H | H]; [|auto].
  rewrite <- H. destruct (better y x); auto.
Qed.

Lemma max_by_in {A : Type} (key : A -> Float.float) (l : list A) (x : A) :
  max_by key l = Ok x -> In x l.
Proof.
  destruct l as [|y l]; [discriminate|]. intros [= <-].
  apply (fold_choice_in (fun a b => Float.gtb (key a) (key b))).
Qed.

Lemma min_by_in {A : Type} (key : A -> Float.float) (l : list A) (x : A) :
  min_by key l = Ok x -> In x l.
Proof.
  destruct l as [|y l]; [discriminate|]. intros [= <-].
  apply (fold_choice_in (fun a b => Float.ltb (key a) (key b))).
Qed.

Lemma single_line_section (fairness_data : FairnessResponse)
  (ad : string * Float.float) (ls : list string) :
  group_names_single_line fairness_data ->
  section_of fairness_data ad ls ->
  Forall (fun s => single_line s = true) ls.
Proof.
  intros Hg (rates & highest & lowest & Hr & Hmax & Hmin & ->).
  pose proof (Hg _ _ Hr) as Hn. rewrite Forall_forall in Hn.
  pose proof (Hn _ (max_by_in _ _ _ Hmax)) as Hh.
  pose proof (Hn _ (min_by_in _ _ _ Hmin)) as Hl.
  assert (Ha : single_line (fst ad) = true).
  { unfold rates_of in Hr.
    destruct (String.eqb_spec (fst ad) "Gender") as [-> |]; [reflexivity|].
    destruct (String.eqb_spec (fst ad) "Race") as [-> |]; [reflexivity|].
    destruct (String.eqb_spec (fst ad) "Age Group") as [-> |]; [reflexivity|].
    destruct (String.eqb_spec (fst ad) "Disability Status") as [-> |];
      [reflexivity | discriminate]. }
  unfold section_lines, disparity_line, highest_line, lowest_line.
  apply Forall_app. split; [|apply Forall_app; split].
  - repeat constructor;
      rewrite !single_line_append, ?single_line_f1, ?Ha, ?Hh, ?Hl;
      reflexivity.
  - destruct (flagged (snd ad)); repeat constructor.
  - repeat constructor.
Qed.

Lemma single_line_report_lines (fairness_data : FairnessResponse)
  (t : tier) (l : list (string * Float.float)) (sections : list (list string)) :
  group_names_single_line fairness_data ->
  Forall2 (section_of fairness_data) l sections ->
  Forall (fun s => single_line s = true) (report_lines t sections).
Proof.
  intros Hg Hs. unfold report_lines.
  apply Forall_app. split; [destruct t; repeat constructor|].
  apply Forall_app. split; [|destruct t; repeat constructor].
  induction Hs as [|ad ls l l' H _ IH]; cbn [List.concat]; [constructor|].
  apply Forall_app. split; trivial. now apply single_line_section with fairness_data ad.
Qed.

End LineFacts.

(** ** Formatted numbers *)

Module FormatFacts.

Import Spec TextFacts.

(** [round_half_even n d] is a nearest integer to [n / d]. *)
Lemma round_half_even_nearest (n d : Z) :
  0 <= n -> 0 < d ->
  2 * Z.abs (Format.round_half_even n d * d - n) <= d.
Proof.
  intros Hn Hd. unfold Format.round_half_even.
  pose proof (Z.div_mod n d ltac:(lia)) as Hdm.
  pose proof (Z.mod_pos_bound n d Hd) as Hb.
  destruct (Z.compare_spec (2 * (n mod d)) d) as [He | Hl | Hg].
  - destruct (Z.even (n / d)); nia.
  - nia.
  - nia.
Qed.

(** On a tie the even neighbour is taken. *)
Lemma round_half_even_tie (n d : Z) :
  0 <= n -> 0 < d -> 2 * (n mod d) = d ->
  Z.even (Format.round_half_even n d) = true.
Proof.
  intros Hn Hd Ht. unfold Format.round_half_even.
  rewrite Ht, Z.compare_refl.
  destruct (Z.even (n / d)) eqn:E; trivial.
  rewrite Z.even_add, E. reflexivity.
Qed.

(** The digits ['.<digits>f'] prints are those of a nearest integer to
    [m * 2^e * 10^digits]. *)
Lemma scaled_nearest (digits : nat) (m : positive) (e : Z) :
  (0 <= e ->
   Format.scaled digits m e = Z.pos m * 10 ^ Z.of_nat digits * 2 ^ e) /\
  (e < 0 ->
   2 * Z.abs (Format.scaled digits m e * 2 ^ (- e)
              - Z.pos m * 10 ^ Z.of_nat digits) <= 2 ^ (- e)).
Proof.
  unfold Format.scaled. split; intros He.
  - destruct (Z.leb_spec 0 e); [reflexivity | lia].
  - destruct (Z.leb_spec 0 e); [lia|].
    apply round_half_even_nearest.
    + apply Z.mul_nonneg_nonneg; [lia|]. apply Z.pow_nonneg. lia.
    + apply Z.pow_pos_nonneg; lia.
Qed.

Lemma below_in_seq (k : Z) (n : nat) :
  0 <= k < Z.of_nat n -> In (Z.to_nat k) (seq 0 n).
Proof. intros H. apply in_seq. lia. Qed.

Lemma fraction_one_digit (k : Z) :
  0 <= k < 10 -> one_digit (Format.pad_zeros 1 (Format.digits_of k)) = true.
Proof.
  intros H.
  assert (Hall : forallb (fun i => one_digit (Format.pad_zeros 1
                                     (Format.digits_of (Z.of_nat i))))
                         (seq 0 10) = true) by (vm_compute; reflexivity).
  rewrite forallb_forall in Hall.
  specialize (Hall (Z.to_nat k) (below_in_seq k 10 H)).
  now rewrite Z2Nat.id in Hall by lia.
Qed.

Lemma fraction_two_digits (k : Z) :
  0 <= k < 100 -> two_digits (Format.pad_zeros 2 (Format.digits_of k)) = true.
Proof.
  intros H.
  assert (Hall : forallb (fun i => two_digits (Format.pad_zeros 2
                                     (Format.digits_of (Z.of_nat i))))
                         (seq 0 100) = true) by (vm_compute; reflexivity).
  rewrite forallb_forall in Hall.
  specialize (Hall (Z.to_nat k) (below_in_seq k 100 H)).
  now rewrite Z2Nat.id in Hall by lia.
Qed.

(** ['.1f'] of a finite float: an optional sign, the integer digits, a
    point and one digit. *)
Lemma f1_finite (s : bool) (m : positive) (e : Z) :
  exists fraction,
    Format.f1 (S754_finite s m e)
    = (if s then "-" else "")
        ++ Format.digits_of (Format.scaled 1 m e / 10)
        ++ "." ++ fraction /\
    one_digit fraction = true.
Proof.
  eexists. split; [reflexivity|].
  apply fraction_one_digit. apply Z.mod_pos_bound. reflexivity.
Qed.

(** [',.2f'] of a finite float: an optional sign, the integer digits in
    groups of three, a point and two digits. *)
Lemma money_finite (s : bool) (m : positive) (e : Z) :
  exists fraction,
    Format.money (S754_finite s m e)
    = (if s then "-" else "")
        ++ Format.group_thousands
             (Format.digits_of (Format.scaled 2 m e / 100))
        ++ "." ++ fraction /\
    two_digits fraction = true.
Proof.
  eexists. split; [reflexivity|].
  apply fraction_two_digits. apply Z.mod_pos_bound. reflexivity.
Qed.

(** *** Thousands separators *)

Lemma all_digits_uint (d : Decimal.uint) :
  all_digits (NilEmpty.string_of_uint d) = true.
Proof. induction d; simpl; trivial. Qed.

Lemma all_digits_digits_of (z : Z) : all_digits (Format.digits_of z) = true.
Proof.
  unfold Format.digits_of, NilZero.string_of_uint.
  destruct (N.to_uint (Z.to_N z)); try reflexivity;
    apply (all_digits_uint (_ _)).
Qed.

Lemma digits_of_nonempty (z : Z) : Format.digits_of z <> EmptyString.
Proof.
  unfold Format.digits_of, NilZero.string_of_uint.
  destruct (N.to_uint (Z.to_N z)); discriminate.
Qed.

Lemma ungroup_digit (c : ascii) (s : string) :
  is_digit c = true -> ungroup (String c s) = String c (ungroup s).
Proof.
  intros H. cbn [ungroup].
  destruct (Ascii.eqb_spec c ",") as [-> |]; [discriminate H | reflexivity].
Qed.

Lemma ungroup_rev_string (s acc : string) :
  all_digits s = true ->
  ungroup (Format.rev_string s acc) = Format.rev_string s (ungroup acc).
Proof.
  revert acc. induction s as [|c s IH]; intros acc H; [reflexivity|].
  simpl in H. apply andb_true_iff in H. destruct H as (Hc & Hs).
  cbn [Format.rev_string]. rewrite IH; trivial. now rewrite ungroup_digit.
Qed.

Lemma all_digits_rev_string (s acc : string) :
  all_digits s = true -> all_digits acc = true ->
  all_digits (Format.rev_string s acc) = true.
Proof.
  revert acc. induction s as [|c s IH]; intros acc Hs Ha; [exact Ha|].
  simpl in Hs. apply andb_true_iff in Hs. destruct Hs as (Hc & Hs).
  cbn [Format.rev_string]. apply IH; trivial. simpl. now rewrite Hc.
Qed.

(** The invariant of [group_rev]: the accumulator holds [k] digits, at
    most three, in front of groups of three. *)
Lemma group_rev_grouped (s head t : string) :
  all_digits s = true ->
  all_digits head = true -> (String.length head <= 3)%nat ->
  groups_of_three t ->
  (s <> EmptyString \/ head <> EmptyString) ->
  grouped (Format.group_rev s (String.length head) (head ++ t)) /\
  ungroup (Format.group_rev s (String.length head) (head ++ t))
  = Format.rev_string s (ungroup (head ++ t)).
Proof.
  revert head t. induction s as [|c s IH]; intros head t Hs Hh Hl Ht Hne.
  - cbn [Format.group_rev Format.rev_string]. split; trivial.
    exists head, t. repeat split; trivial.
    destruct head; [destruct Hne; congruence | simpl; lia].
  - simpl in Hs. apply andb_true_iff in Hs. destruct Hs as (Hc & Hs).
    cbn [Format.group_rev Format.rev_string].
    destruct head as [|a [|b [|d [|x head]]]]; cbn [String.length] in *;
      try lia.
    + specialize (IH (String c EmptyString) t Hs).
      cbn [String.length append] in IH. cbn [append].
      rewrite <- (ungroup_digit c t Hc). apply IH; simpl; auto.
      * now rewrite Hc.
      * right. discriminate.
    + specialize (IH (String c (String a EmptyString)) t Hs).
      cbn [String.length append] in IH. cbn [append].
      rewrite <- (ungroup_digit c _ Hc). apply IH; simpl; auto.
      * simpl in Hh. now rewrite Hc, Hh.
      * right. discriminate.
    + specialize (IH (String c (String a (String b EmptyString))) t Hs).
      cbn [String.length append] in IH. cbn [append].
      rewrite <- (ungroup_digit c _ Hc). apply IH; simpl; auto.
      * simpl in Hh. now rewrite Hc, Hh.
      * right. discriminate.
    + specialize (IH (String c EmptyString)
                     (String "," (String a (String b (String d t)))) Hs).
      cbn [String.length append] in IH. cbn [append].
      simpl in Hh. apply andb_true_iff in Hh. destruct Hh as (Ha & Hh).
      apply andb_true_iff in Hh. destruct Hh as (Hb & Hh).
      apply andb_true_iff in Hh. destruct Hh as (Hd & _).
      replace (ungroup (String a (String b (String d t))))
        with (ungroup (String "," (String a (String b (String d t)))))
        by reflexivity.
      rewrite <- (ungroup_digit c _ Hc). apply IH; simpl; auto.
      * now rewrite Hc.
      * now constructor.
      * right. discriminate.
Qed.

Lemma rev_string_involutive (s acc : string) :
  Format.rev_string (Format.rev_string s EmptyString) acc = s ++ acc.
Proof.
  assert (H : forall a b c,
             Format.rev_string (Format.rev_string a b) c
             = Format.rev_string b (a ++ c)).
  { induction a as [|x a IH]; intros b c; [reflexivity|].
    cbn [Format.rev_string append]. now rewrite IH. }
  apply (H s EmptyString acc).
Qed.

(** The [','] option groups the digits in threes from the right and
    changes nothing else. *)
Lemma group_thousands_grouped (s : string) :
  all_digits s = true -> s <> EmptyString ->
  grouped (Format.group_thousands s) /\
  ungroup (Format.group_thousands s) = s.
Proof.
  intros Hd Hne. unfold Format.group_thousands.
  destruct (group_rev_grouped (Format.rev_string s EmptyString)
                              EmptyString EmptyString) as (Hg & Hu).
  - now apply all_digits_rev_string.
  - reflexivity.
  - simpl. lia.
  - constructor.
  - left. destruct s as [|c s]; [congruence|]. cbn [Format.rev_string].
    intros H.
    assert (Hlen : forall a b, String.length (Format.rev_string a b)
                               = (String.length a + String.length b)%nat).
    { induction a as [|x a IH]; intros b; [reflexivity|].
      cbn [Format.rev_string]. rewrite IH. simpl. lia. }
    pose proof (Hlen s (String c EmptyString)) as Hl.
    rewrite H in Hl. simpl in Hl. lia.
  - cbn [String.length append] in Hg, Hu. split; trivial.
    rewrite Hu. cbn [ungroup]. rewrite rev_string_involutive.
    apply append_nil_r.
Qed.

End FormatFacts.

(** * The claims *)

Module Claims.

Import Py FloatOrder FloatFacts SortFacts TextFacts LineFacts FormatFacts Spec
  ExplanationGenerator.

Local Open Scope list_scope.




Lemma severity_low (m : Float.float) :
  severity m = low <-> Float.gtb m Float.five = false.
Proof.
  unfold severity. destruct (Float.gtb m Float.ten) eqn:E10.
  - unfold Float.gtb in *.
    rewrite (ltb_trans Float.five Float.ten m eq_refl E10).
    split; discriminate.
  - destruct (Float.gtb m Float.five) eqn:E5; [|cbn; tauto].
    rewrite (not_ltb_leb Float.ten m eq_refl (gtb_not_nan _ _ E5) E10).
    cbn. split; discriminate.
Qed.



Lemma max_magnitude_greatest (fairness_data : FairnessResponse) (m : Float.float) :
  disparities_not_nan fairness_data ->
  max_magnitude fairness_data = Ok m ->
  In m (map magnitude (disparities fairness_data)) /\
  Forall (fun ad => Float.leb (magnitude ad) m = true)
         (disparities fairness_data).
Proof.
  intros Hn Hm. pose proof (disparities_magnitude_not_nan _ Hn) as Hd.
  assert (Hd' : Forall (fun e => not_nan e)
                       (map magnitude (disparities fairness_data)))
    by (apply Forall_map; exact Hd).
  destruct (max_by_first_extreme (fun m => m)
              (map magnitude (disparities fairness_data)))
    as (x & Hx & He); [discriminate | exact Hd' |].
  unfold max_magnitude in Hm. rewrite Hx in Hm. injection Hm as ->.
  destruct (first_greater_bounds _ _ _ Hd' He) as (Hin & Hall).
  split; trivial. now apply Forall_map in Hall.
Qed.







(** Within a subsection only the regulatory line reads as such. *)
Lemma regulatory_concern_in_section
  (ad highest lowest : string * Float.float) :
  In regulatory_concern (section_lines ad highest lowest) <->
  Float.gtb (Float.abs (snd ad)) Float.five = true.
Proof.
  unfold section_lines. fold (flagged (snd ad)).
  destruct (flagged (snd ad)); cbn [app In]; split; trivial.
  - intros _. do 4 right. now left.
  - intros [H | [H | [H | [H | [H | []]]]]]; discriminate H.
  - discriminate.
Qed.








Lemma bullets_of_message (application : Application.LoanApplication)
  (prediction : PredictionResponse) :
  Forall (fun fi => single_line (fst fi) = true) (explanation prediction) ->
  filter is_bullet
         (split_lines (generate_loan_explanation application prediction))
  = map (factor_bullet (approved prediction)) (top_factors prediction).
Proof.
  intros H. rewrite split_generate_loan_explanation; trivial.
  rewrite filter_app, bullet_loan_lines. cbn [filter is_bullet String.prefix].
  now rewrite app_nil_r.
Qed.



Lemma prefix_refl (s : string) : String.prefix s s = true.
Proof.
  induction s as [|c s IH]; simpl; [reflexivity|].
  destruct (ascii_dec c c); [exact IH | congruence].
Qed.

Lemma contains_refl (s : string) : contains s s = true.
Proof. destruct s; cbn [contains]; now rewrite prefix_refl. Qed.

Lemma numbered_approved_bullets (l : list (string * Float.float)) :
  filter is_numbered (map approved_bullet l) = [].
Proof. induction l as [|fi l IH]; [reflexivity | exact IH]. Qed.

Lemma numbered_denied_bullets (l : list (string * Float.float)) :
  filter is_numbered (map denied_bullet l) = [].
Proof. induction l as [|fi l IH]; [reflexivity | exact IH]. Qed.

Lemma numbered_loan_lines (application : Application.LoanApplication)
  (prediction : PredictionResponse) :
  filter is_numbered (loan_lines application prediction)
  = if approved prediction then maintenance_recommendations
    else improvement_recommendations.
Proof.
  unfold loan_lines. destruct (approved prediction); rewrite !filter_app.
  - rewrite numbered_approved_bullets. reflexivity.
  - rewrite numbered_denied_bullets. reflexivity.
Qed.

Lemma numbered_of_message (application : Application.LoanApplication)
  (prediction : PredictionResponse) :
  Forall (fun fi => single_line (fst fi) = true) (explanation prediction) ->
  filter is_numbered
         (split_lines (generate_loan_explanation application prediction))
  = if approved prediction then maintenance_recommendations
    else improvement_recommendations.
Proof.
  intros H. rewrite split_generate_loan_explanation; trivial.
  rewrite filter_app, numbered_loan_lines. cbn [filter is_numbered].
  now rewrite app_nil_r.
Qed.

(** C6.  A denied application's explanation has exactly four numbered
    lines, the improvement recommendations, and contains the invitation
    to request a detailed explanation of the decision.  An approved
    application's explanation has exactly three numbered lines, the
    maintenance recommendations, and contains the stability statement,
    which quotes the credit score as [str] prints it and the income after
    a dollar sign as [',.2f'] prints it: for a finite income, the integer
    digits in comma-separated groups of three, a point and two decimals.
    The numbered lines are counted among the lines the
    generator emits and, when no factor name holds a line break, among
    the lines of the returned text. *)
Theorem C6_recommendations_by_decision
  (application : Application.LoanApplication)
  (prediction : PredictionResponse) :
  generate_loan_explanation application prediction
    = lines (loan_lines application prediction) /\
  (approved prediction = false ->
   filter is_numbered (loan_lines application prediction)
     = improvement_recommendations /\
   List.length improvement_recommendations = 4%nat /\
   (Forall (fun fi => single_line (fst fi) = true) (explanation prediction) ->
    filter is_numbered
           (split_lines (generate_loan_explanation application prediction))
    = improvement_recommendations) /\
   contains "you can request a detailed explanation of the decision"
            (generate_loan_explanation application prediction) = true) /\
  (approved prediction = true ->
   filter is_numbered (loan_lines application prediction)
     = maintenance_recommendations /\
   List.length maintenance_recommendations = 3%nat /\
   (Forall (fun fi => single_line (fst fi) = true) (explanation prediction) ->
    filter is_numbered
           (split_lines (generate_loan_explanation application prediction))
    = maintenance_recommendations) /\
   In (stability_statement application) (loan_lines application prediction) /\
   contains (stability_statement application)
            (generate_loan_explanation application prediction) = true /\
   stability_statement application
     = ("Your credit score of "
          ++ Format.str_int (Application.credit_score application)
          ++ " and income of $"
          ++ Format.money (Application.income application)
          ++ " demonstrate financial stability, which are important indicators of your ability to repay the loan.")%string /\
   (forall s m e,
       Application.income application = S754_finite s m e ->
       exists units fraction,
         Format.money (Application.income application)
           = ((if s then "-" else "") ++ units ++ "." ++ fraction)%string /\
         grouped units /\
         ungroup units = Format.digits_of (Format.scaled 2 m e / 100) /\
         two_digits fraction = true)) /\
  Format.money (Float.of_int 75000) = "75,000.00"%string /\
  Format.money (Float.decimal 1234567891 1000) = "1,234,567.89"%string /\
  Format.money (Float.decimal 995 10) = "99.50"%string /\
  Format.str_int 720 = "720"%string.
Proof.
  split; [apply generate_loan_explanation_lines|].
  split; [|split].
  - intros Hd. pose proof (numbered_loan_lines application prediction) as Hn.
    rewrite Hd in Hn. split; trivial. split; [reflexivity|]. split.
    { intros Hs. rewrite numbered_of_message; trivial. now rewrite Hd. }
    rewrite generate_loan_explanation_lines.
    apply contains_lines with (l := nth 7 denied_closing EmptyString).
    + unfold loan_lines. rewrite Hd, !in_app_iff. right. right.
      unfold denied_closing. apply in_or_app. right. apply in_or_app. right.
      right. left. reflexivity.
    + vm_compute. reflexivity.
  - intros Ha. pose proof (numbered_loan_lines application prediction) as Hn.
    rewrite Ha in Hn. split; trivial. split; [reflexivity|]. split.
    { intros Hs. rewrite numbered_of_message; trivial. now rewrite Ha. }
    assert (Hin : In (stability_statement application)
                     (loan_lines application prediction)).
    { unfold loan_lines. rewrite Ha, !in_app_iff. right. right.
      unfold approved_closing. apply in_or_app. left.
      right. left. reflexivity. }
    split; trivial. split; [|split; [reflexivity|]].
    + rewrite generate_loan_explanation_lines.
      apply contains_lines with (l := stability_statement application);
        trivial.
      apply contains_refl.
    + intros s m e Hi. rewrite Hi.
      destruct (money_finite s m e) as (fraction & Hm & Hf).
      destruct (group_thousands_grouped
                  (Format.digits_of (Format.scaled 2 m e / 100))
                  (all_digits_digits_of _) (digits_of_nonempty _))
        as (Hg & Hu).
      eexists. exists fraction. repeat split; eassumption.
  - repeat split; vm_compute; reflexivity.
Qed.

Lemma C6_recommendations_by_decision_witness :
  filter is_numbered
    (split_lines
       (generate_loan_explanation (Samples.applicant 720 (Float.of_int 75000))
                                  Samples.denied_prediction))
    = improvement_recommendations /\
  In "Your credit score of 720 and income of $75,000.00 demonstrate financial stability, which are important indicators of your ability to repay the loan."%string
     (loan_lines (Samples.applicant 720 (Float.of_int 75000))
                 Samples.approved_prediction).
Proof.
  pose proof (C6_recommendations_by_decision
                (Samples.applicant 720 (Float.of_int 75000))
                Samples.denied_prediction) as (_ & Hd & _).
  pose proof (C6_recommendations_by_decision
                (Samples.applicant 720 (Float.of_int 75000))
                Samples.approved_prediction) as (_ & _ & Ha & _).
  destruct (Hd eq_refl) as (_ & _ & Hs & _).
  destruct (Ha eq_refl) as (_ & _ & _ & Hin & _).
  split; [|exact Hin].
  apply Hs. repeat constructor.
Defined.



(** C8.  For every report whose attributes each have at least one group
    (no rate NaN), every subsection names as highest the first group, in
    the iteration order of [approval_rates], whose rate is the maximum,
    and as lowest the first group whose rate is the minimum; the
    subsection prints the disparity with ['.1f'] and each of the two
    rates, multiplied by 100, with ['.1f'] followed by a percent sign
    (['.1f'] of a finite value is its integer digits, a point and one
    decimal).
    When no group label holds a line break, the lines of the returned
    text are the lines of the report. *)
Theorem C8_highest_and_lowest_groups (fairness_data : FairnessResponse) :
  rates_nonempty fairness_data ->
  rates_not_nan fairness_data ->
  (forall s m e,
      exists fraction,
        Format.f1 (S754_finite s m e)
        = ((if s then "-" else "")
             ++ Format.digits_of (Format.scaled 1 m e / 10)
             ++ "." ++ fraction)%string /\
        one_digit fraction = true) /\
  exists t sections,
    generate_bias_explanation fairness_data
      = Ok (lines (report_lines t sections)) /\
    (group_names_single_line fairness_data ->
     split_lines (lines (report_lines t sections))
       = report_lines t sections ++ [ EmptyString ]) /\
    Forall2
      (fun ad ls =>
         exists rates highest lowest,
           rates_of fairness_data (fst ad) = Some rates /\
           first_extreme (greater snd) rates highest /\
           Forall (fun r => Float.leb (snd r) (snd highest) = true) rates /\
           first_extreme (less snd) rates lowest /\
           Forall (fun r => Float.leb (snd lowest) (snd r) = true) rates /\
           ls = section_lines ad highest lowest /\
           In ("- Approval rate disparity: " ++ Format.f1 (snd ad) ++ "%")%string
              ls /\
           In ("- Highest approval rate: " ++ fst highest ++ " ("
                 ++ Format.f1 (Float.mul (snd highest) Float.hundred)
                 ++ "%)")%string ls /\
           In ("- Lowest approval rate: " ++ fst lowest ++ " ("
                 ++ Format.f1 (Float.mul (snd lowest) Float.hundred)
                 ++ "%)")%string ls)
      (sorted_disparities fairness_data) sections.
Proof.
  intros Hne Hnn. split; [exact f1_finite|].
  destruct (generate_bias_explanation_lines _ Hne)
    as (m & sections & _ & Hs & Hl).
  exists (severity m), sections. split; trivial.
  split.
  { intros Hg. apply split_lines_lines.
    now apply single_line_report_lines
      with fairness_data (sorted_disparities fairness_data). }
  clear - Hs Hnn. induction Hs as [|ad ls l l' H _ IH]; constructor; trivial.
  destruct H as (rates & highest & lowest & Hr & Hmax & Hmin & ->).
  pose proof (Hnn _ _ Hr) as Hn.
  assert (Hrne : rates <> []) by (intros ->; discriminate Hmax).
  destruct (max_by_first_extreme snd rates Hrne Hn) as (h & Hh & Hhe).
  destruct (min_by_first_extreme snd rates Hrne Hn) as (lo & Hlo & Hloe).
  rewrite Hmax in Hh. injection Hh as <-.
  rewrite Hmin in Hlo. injection Hlo as <-.
  exists rates, highest, lowest.
  split; trivial. split; trivial.
  split; [exact (proj2 (first_greater_bounds _ _ _ Hn Hhe))|].
  split; trivial.
  split; [exact (proj2 (first_less_bounds _ _ _ Hn Hloe))|].
  split; trivial.
  unfold section_lines.
  split; [|split]; apply in_or_app; left.
  - right. left. reflexivity.
  - do 2 right. left. reflexivity.
  - do 3 right. left. reflexivity.
Qed.

Lemma C8_highest_and_lowest_groups_witness :
  rates_nonempty Routes.get_fairness_metrics /\
  rates_not_nan Routes.get_fairness_metrics /\
  exists t sections,
    generate_bias_explanation Routes.get_fairness_metrics
      = Ok (lines (report_lines t sections)) /\
    List.length sections = 4%nat.
Proof.
  assert (Hne : rates_nonempty Routes.get_fairness_metrics)
    by (repeat split; discriminate).
  assert (Hnn : rates_not_nan Routes.get_fairness_metrics).
  { intros attribute rates. unfold rates_of.
    repeat match goal with
           | |- context [String.eqb ?a ?b] => destruct (String.eqb a b)
           end;
      intros [= <-] || discriminate; repeat constructor. }
  split; [exact Hne|]. split; [exact Hnn|].
  destruct (C8_highest_and_lowest_groups _ Hne Hnn)
    as (_ & t & sections & Hg & _ & Hs).
  exists t, sections. split; [exact Hg|].
  apply Forall2_length in Hs. rewrite <- Hs. reflexivity.
Defined.

Lemma most_biased_name (fairness_data : FairnessResponse) :
  exists name,
    In name [ "Gender"; "Race"; "Age Group"; "Disability Status" ]%string /\
    most_biased fairness_data = Ok name.
Proof.
  destruct (most_biased_first fairness_data) as (first & rest & Hs & Hm).
  exists (fst first). split; trivial.
  assert (Hin : In first (disparities fairness_data)).
  { apply Permutation_in with (sorted_disparities fairness_data).
    - apply Permutation_sym, sorted_reverse_perm.
    - rewrite Hs. now left. }
  destruct Hin as [<- | [<- | [<- | [<- | []]]]]; simpl; tauto.
Qed.

Lemma strategy_lines_static (a b : string) (i : nat) :
  i <> 7%nat ->
  nth i (strategy_lines a) ""%string = nth i (strategy_lines b) ""%string.
Proof.
  intros Hi.
  do 8 (destruct i as [|i]; [reflexivity || congruence|]).
  reflexivity.
Qed.

(** C9.  The remediation strategy always returns a document, and the
    document is a function of the attribute [most_biased] selects (one of
    the four names): two reports with the same most-disparate attribute
    give the same text, byte for byte.  The text has 56 lines, and the
    lines of two strategies agree everywhere except at the one line
    (index 7) that names the attribute, whatever the metrics. *)
Theorem C9_remediation_static_but_one_line :
  (forall fairness_data,
      exists name,
        In name [ "Gender"; "Race"; "Age Group"; "Disability Status" ]%string /\
        most_biased fairness_data = Ok name /\
        generate_remediation_strategy fairness_data
          = Ok (lines (strategy_lines name)) /\
        split_lines (lines (strategy_lines name))
          = strategy_lines name ++ [ EmptyString ]) /\
  (forall f1 f2,
      most_biased f1 = most_biased f2 ->
      generate_remediation_strategy f1 = generate_remediation_strategy f2) /\
  (forall a b i,
      i <> 7%nat ->
      nth i (strategy_lines a) ""%string = nth i (strategy_lines b) ""%string) /\
  (forall a, nth 7 (strategy_lines a) ""%string = focus_sentence a) /\
  (forall a, List.length (strategy_lines a) = 56%nat).
Proof.
  split; [|split; [|split; [|split]]].
  - intros fairness_data.
    destruct (most_biased_name fairness_data) as (name & Hin & Hm).
    exists name. repeat split; trivial.
    + now apply generate_remediation_strategy_lines.
    + apply split_lines_lines, single_line_strategy_lines.
      destruct Hin as [<- | [<- | [<- | [<- | []]]]]; reflexivity.
  - intros f1 f2 H.
    destruct (most_biased_name f1) as (n1 & _ & H1).
    destruct (most_biased_name f2) as (n2 & _ & H2).
    rewrite (generate_remediation_strategy_lines _ _ H1).
    rewrite (generate_remediation_strategy_lines _ _ H2).
    congruence.
  - exact strategy_lines_static.
  - reflexivity.
  - reflexivity.
Qed.

Lemma C9_remediation_static_but_one_line_witness :
  most_biased Routes.get_fairness_metrics
    = most_biased (Samples.uniform_metrics [] (S754_infinity true)) \/
  generate_remediation_strategy Samples.tied_metrics
    = generate_remediation_strategy Routes.get_fairness_metrics.
Proof.
  right.
  apply (proj1 (proj2 C9_remediation_static_but_one_line)).
  vm_compute. reflexivity.
Defined.

Lemma for_each_ext {A S : Type} (f g : S -> A -> result S) (l : list A) :
  (forall s x, f s x = g s x) ->
  forall s, for_each f l s = for_each g l s.
Proof.
  intros H. induction l as [|x l IH]; intros s; cbn [for_each].
  - reflexivity.
  - rewrite H. destruct (g s x); cbn [bind]; [apply IH | reflexivity].
Qed.

Lemma same_approvals_disparities (f1 f2 : FairnessResponse) :
  same_approvals f1 f2 -> disparities f1 = disparities f2.
Proof.
  intros ((_ & Hg) & (_ & Hr) & (_ & Ha) & (_ & Hd)).
  unfold disparities. now rewrite Hg, Hr, Ha, Hd.
Qed.

Lemma same_approvals_section (f1 f2 : FairnessResponse) :
  same_approvals f1 f2 ->
  forall message ad,
    attribute_section f1 message ad = attribute_section f2 message ad.
Proof.
  intros ((Hg & _) & (Hr & _) & (Ha & _) & (Hd & _)) message ad.
  unfold attribute_section. now rewrite Hg, Hr, Ha, Hd.
Qed.

(** C10.  The loan-decision explanation reads only [credit_score] and
    [income] of the application: two applications that agree on these two
    fields get the same text for the same prediction, and when the
    prediction is a denial any two applications get the same text.  The
    bias report and the remediation strategy read only [approval_rates]
    and [approval_disparity]: two reports that agree on these, whatever
    their [fp_rates], [fn_rates], [fp_disparity] and [fn_disparity], give
    the same results. *)
Theorem C10_outputs_ignore_unread_fields :
  (forall a1 a2 prediction,
      Application.credit_score a1 = Application.credit_score a2 ->
      Application.income a1 = Application.income a2 ->
      generate_loan_explanation a1 prediction
        = generate_loan_explanation a2 prediction) /\
  (forall a1 a2 prediction,
      approved prediction = false ->
      generate_loan_explanation a1 prediction
        = generate_loan_explanation a2 prediction) /\
  (forall f1 f2,
      same_approvals f1 f2 ->
      generate_bias_explanation f1 = generate_bias_explanation f2 /\
      generate_remediation_strategy f1 = generate_remediation_strategy f2).
Proof.
  split; [|split].
  - intros a1 a2 prediction Hc Hi.
    unfold generate_loan_explanation, approved_closing, stability_statement.
    now rewrite Hc, Hi.
  - intros a1 a2 prediction Hd.
    unfold generate_loan_explanation. now rewrite Hd.
  - intros f1 f2 H.
    pose proof (same_approvals_disparities _ _ H) as Hd.
    split.
    + unfold generate_bias_explanation. rewrite Hd.
      destruct (max_by _ _) as [m|e]; cbn [bind]; [|reflexivity].
      now rewrite (for_each_ext _ _ _ (same_approvals_section _ _ H)).
    + unfold generate_remediation_strategy, most_biased. now rewrite Hd.
Qed.

Lemma C10_outputs_ignore_unread_fields_witness :
  same_approvals Routes.get_fairness_metrics Samples.other_error_rates /\
  generate_bias_explanation Routes.get_fairness_metrics
    = generate_bias_explanation Samples.other_error_rates.
Proof.
  assert (H : same_approvals Routes.get_fairness_metrics
                             Samples.other_error_rates)
    by (repeat split; reflexivity).
  split; [exact H|].
  exact (proj1 (proj2 (proj2 C10_outputs_ignore_unread_fields)
                  Routes.get_fairness_metrics Samples.other_error_rates H)).
Defined.

End Claims.

(** ** The paragraphs of the PDF report *)

Module ReportFacts.

Import Py FloatOrder FloatFacts SortFacts Spec TextFacts LineFacts
  ExplanationGenerator LoanReport ReportSpec.

Lemma prefix_star (s : string) :
  String.prefix "*" s
  = match s with String c _ => is_star c | EmptyString => false end.
Proof.
  destruct s as [|c s]; [reflexivity|]. cbn [String.prefix].
  unfold is_star. destruct (ascii_dec "*" c) as [<- | n].
  - now destruct s.
  - symmetry. apply Ascii.eqb_neq. congruence.
Qed.

Lemma prefix_two_stars (s : string) :
  String.prefix "**" s
  = match s with
    | String a (String b _) => is_star a && is_star b
    | _ => false
    end.
Proof.
  destruct s as [|a [|b s]]; cbn [String.prefix]; unfold is_star.
  - reflexivity.
  - destruct (ascii_dec "*" a); reflexivity.
  - destruct (ascii_dec "*" a) as [<- | n].
    + destruct (ascii_dec "*" b) as [<- | n'].
      * now destruct s.
      * symmetry. cbn. apply Ascii.eqb_neq. congruence.
    + symmetry. apply andb_false_iff. left. apply Ascii.eqb_neq. congruence.
Qed.

Lemma replace_star (s : string) : str_replace "*" "" s = remove_stars s.
Proof.
  unfold str_replace. induction s as [|c s IH]; [reflexivity|].
  cbn [replace_from remove_stars]. rewrite prefix_star.
  cbn [String.length Nat.sub append]. rewrite IH.
  now destruct (is_star c).
Qed.

Lemma replace_two_stars (s : string) :
  remove_stars (str_replace "**" "" s) = remove_stars s.
Proof.
  unfold str_replace.
  assert (H : remove_stars (replace_from "**" "" 0 s) = remove_stars s
              /\ forall c, remove_stars (replace_from "**" "" 0 (String c s))
                           = remove_stars (String c s)).
  { induction s as [|b s (IH0 & IH1)].
    - split; [reflexivity|]. intros c.
      cbn [replace_from]. rewrite prefix_two_stars. reflexivity.
    - split; [apply IH1|]. intros c.
      cbn [replace_from]. rewrite prefix_two_stars.
      cbn [String.length Nat.sub append].
      destruct (is_star c) eqn:Ec, (is_star b) eqn:Eb; cbn [andb].
      + cbn [replace_from remove_stars]. rewrite Ec, Eb. exact IH0.
      + cbn [remove_stars]. rewrite Ec. apply IH1.
      + cbn [remove_stars]. rewrite Ec. f_equal. apply IH1.
      + cbn [remove_stars]. rewrite Ec. f_equal. apply IH1. }
  exact (proj1 H).
Qed.

Lemma star_free_remove_stars (s : string) : star_free (remove_stars s) = true.
Proof.
  induction s as [|c s IH]; [reflexivity|]. cbn [remove_stars].
  destruct (is_star c) eqn:E; [exact IH|]. cbn. now rewrite E.
Qed.

Lemma remove_stars_star_free (s : string) :
  star_free s = true -> remove_stars s = s.
Proof.
  induction s as [|c s IH]; [reflexivity|]. cbn. intros H.
  apply andb_true_iff in H. destruct H as (Hc & Hs).
  apply negb_true_iff in Hc. rewrite Hc. now rewrite IH.
Qed.

Lemma processed_text_remove_stars (s : string) :
  processed_text s = remove_stars s.
Proof.
  unfold processed_text. now rewrite replace_star, replace_two_stars.
Qed.

(** *** Lines and joins *)

Lemma split_lines_single (s : string) :
  Forall (fun l => single_line l = true) (split_lines s).
Proof.
  induction s as [|c s IH]; cbn [split_lines]; [repeat constructor|].
  destruct (is_newline c) eqn:E; [now constructor|].
  destruct (split_lines s) as [|l ls].
  - repeat constructor. cbn. now rewrite E.
  - inversion IH as [|? ? Hl Hls]; subst. constructor; trivial.
    cbn. now rewrite E, Hl.
Qed.

Lemma split_lines_star_free (s : string) :
  star_free s = true ->
  Forall (fun l => star_free l = true) (split_lines s).
Proof.
  induction s as [|c s IH]; cbn [split_lines star_free];
    [repeat constructor|].
  intros H. apply andb_true_iff in H. destruct H as (Hc & Hs).
  specialize (IH Hs).
  destruct (is_newline c); [now constructor|].
  destruct (split_lines s) as [|l ls].
  - repeat constructor. cbn. now rewrite Hc.
  - inversion IH as [|? ? Hl Hls]; subst. constructor; trivial.
    cbn. now rewrite Hc, Hl.
Qed.


Lemma stripped_nonempty_append (a b : string) :
  stripped_nonempty (a ++ b) = stripped_nonempty a || stripped_nonempty b.
Proof.
  induction a as [|c a IH]; [reflexivity|]. cbn. now rewrite IH, orb_assoc.
Qed.

Lemma star_free_append (a b : string) :
  star_free (a ++ b) = star_free a && star_free b.
Proof.
  induction a as [|c a IH]; [reflexivity|]. cbn. now rewrite IH, andb_assoc.
Qed.

Lemma concat_cons (sep l : string) (ls : list string) :
  String.concat sep (l :: ls)
  = match ls with
    | [] => l
    | _ :: _ => l ++ sep ++ String.concat sep ls
    end.
Proof. destruct ls; reflexivity. Qed.

Lemma join_single_line (ls : list string) :
  Forall (fun l => single_line l = true) ls ->
  single_line (String.concat " " ls) = true.
Proof.
  induction 1 as [|l ls Hl Hls IH]; [reflexivity|].
  rewrite concat_cons. destruct ls; trivial.
  rewrite !single_line_append, Hl, IH. reflexivity.
Qed.

Lemma join_star_free (ls : list string) :
  Forall (fun l => star_free l = true) ls ->
  star_free (String.concat " " ls) = true.
Proof.
  induction 1 as [|l ls Hl Hls IH]; [reflexivity|].
  rewrite concat_cons. destruct ls; trivial.
  rewrite !star_free_append, Hl, IH. reflexivity.
Qed.

Lemma join_stripped_nonempty (l : string) (ls : list string) :
  stripped_nonempty l = true ->
  stripped_nonempty (String.concat " " (l :: ls)) = true.
Proof.
  intros H. rewrite concat_cons. destruct ls; trivial.
  now rewrite stripped_nonempty_append, H.
Qed.

(** *** The loop over the lines *)

Lemma paragraphs_fold (text : string) :
  paragraphs text
  = close_paragraph
      (fold_left paragraph_step (split_lines (processed_text text)) ([], [])).
Proof.
  unfold paragraphs, close_paragraph.
  now destruct (fold_left _ _ _) as [ps [|l cur]].
Qed.

Lemma paragraph_text_iff (p : string) :
  paragraph_text p = true <-> line_text p.
Proof.
  unfold paragraph_text, line_text. rewrite !andb_true_iff. tauto.
Qed.

Lemma join_line_text (l : string) (ls : list string) :
  Forall line_text (l :: ls) -> line_text (String.concat " " (l :: ls)).
Proof.
  intros H. assert (H' := H). inversion H as [|? ? (Hn & _ & _) _]; subst.
  split; [now apply join_stripped_nonempty|]. split.
  - apply join_single_line. revert H'. apply Forall_impl. intros a Ha. apply Ha.
  - apply join_star_free. revert H'. apply Forall_impl. intros a Ha. apply Ha.
Qed.

Lemma paragraph_step_invariant (state : list string * list string)
  (line : string) :
  single_line line = true -> star_free line = true ->
  Forall line_text (fst state) -> Forall line_text (snd state) ->
  Forall line_text (fst (paragraph_step state line)) /\
  Forall line_text (snd (paragraph_step state line)).
Proof.
  destruct state as [ps cur]. cbn [fst snd paragraph_step].
  intros Hs Hf Hps Hcur.
  destruct (stripped_nonempty line) eqn:E; cbn [fst snd].
  - split; trivial. apply Forall_app. split; trivial.
    repeat constructor; trivial.
  - destruct cur as [|l cur]; cbn [fst snd]; [auto|].
    split; [|constructor]. apply Forall_app. split; trivial.
    constructor; [|constructor]. now apply join_line_text.
Qed.

Lemma fold_invariant (ls : list string) (state : list string * list string) :
  Forall (fun l => single_line l = true) ls ->
  Forall (fun l => star_free l = true) ls ->
  Forall line_text (fst state) -> Forall line_text (snd state) ->
  Forall line_text (fst (fold_left paragraph_step ls state)) /\
  Forall line_text (snd (fold_left paragraph_step ls state)).
Proof.
  revert state. induction ls as [|l ls IH]; intros state Hs Hf Hps Hcur.
  - auto.
  - inversion Hs as [|? ? Hsl Hsls]; inversion Hf as [|? ? Hfl Hfls]; subst.
    cbn [fold_left].
    destruct (paragraph_step_invariant state l) as (Ha & Hb); trivial.
    now apply IH.
Qed.

Lemma paragraphs_line_text (text : string) :
  Forall line_text (paragraphs text).
Proof.
  rewrite paragraphs_fold, processed_text_remove_stars.
  destruct (fold_invariant (split_lines (remove_stars text)) ([], []))
    as (H1 & H2).
  - apply split_lines_single.
  - apply split_lines_star_free, star_free_remove_stars.
  - constructor.
  - constructor.
  - unfold close_paragraph.
    destruct (snd (fold_left _ _ _)) as [|l cur] eqn:E; trivial.
    apply Forall_app. split; trivial.
    constructor; [|constructor]. now apply join_line_text.
Qed.



Lemma step_blank_idle (ps : list string) :
  paragraph_step (ps, []) EmptyString = (ps, []).
Proof. reflexivity. Qed.

(** *** Paragraphs separated by blank lines come back *)


(** *** Formatted numbers and factor names hold no asterisk *)

















(** *** The paragraphs of a loan-decision explanation *)


End ReportFacts.

(** ** Rankings and factor names *)

Module MoreFacts.

Import Py FloatOrder FloatFacts SortFacts Spec TextFacts LineFacts
  ExplanationGenerator LoanReport ReportSpec ReportFacts.

Local Open Scope list_scope.



Lemma insert_reverse_ext {A : Type} (k1 k2 : A -> Float.float) (x : A)
  (l : list A) :
  (forall y, In y l ->
             Float.ltb (k1 x) (k1 y) = Float.ltb (k2 x) (k2 y)) ->
  insert_reverse k1 x l = insert_reverse k2 x l.
Proof.
  induction l as [|y l IH]; intros H; [reflexivity|].
  cbn [insert_reverse]. rewrite (H y (or_introl eq_refl)).
  destruct (Float.ltb (k2 x) (k2 y)); [|reflexivity].
  f_equal. apply IH. intros z Hz. apply H. now right.
Qed.

(** Two keys that compare alike on a list sort it alike. *)
Lemma sorted_reverse_ext {A : Type} (k1 k2 : A -> Float.float) (l : list A) :
  (forall x y, In x l -> In y l ->
               Float.ltb (k1 x) (k1 y) = Float.ltb (k2 x) (k2 y)) ->
  sorted_reverse k1 l = sorted_reverse k2 l.
Proof.
  induction l as [|x l IH]; intros H; [reflexivity|].
  cbn [sorted_reverse]. rewrite IH.
  - apply insert_reverse_ext. intros y Hy. apply H; [now left|]. right.
    apply Permutation_in with (sorted_reverse k2 l); trivial.
    apply Permutation_sym, sorted_reverse_perm.
  - intros a b Ha Hb. apply H; now right.
Qed.

Lemma ltb_abs (x y : Float.float) :
  not_negative x = true -> not_negative y = true ->
  Float.ltb (Float.abs x) (Float.abs y) = Float.ltb x y.
Proof.
  destruct x as [[]|[]| |[] mx ex], y as [[]|[]| |[] my ey];
    try discriminate; reflexivity.
Qed.

(** *** [str.title] after [str.replace] is idempotent *)










End MoreFacts.

(** * Further properties of the code *)

Module Extras.

Import Py FloatOrder FloatFacts SortFacts Spec TextFacts LineFacts
  ExplanationGenerator LoanReport ReportSpec ReportFacts MoreFacts Api.

Local Open Scope list_scope.

(** ** The routes *)

Lemma predict_returns (str : raised -> string)
  (application : Application.LoanApplication) :
  predict str application
  = Returns {| approved := rule application;
               approval_probability :=
                 if rule application then Routes.D 80 else Routes.D 20;
               explanation := Routes.predict_explanation |}.
Proof. reflexivity. Qed.

(** X1.  [predict] reads three fields of the application only: two
    applications with the same credit score, income and loan amount get
    the same prediction, whatever their gender, race, age, disability
    status and other fields. *)
Theorem X1_predict_reads_three_fields (str : raised -> string)
  (a1 a2 : Application.LoanApplication) :
  in_frame a1 -> in_frame a2 ->
  Application.credit_score a1 = Application.credit_score a2 ->
  Application.income a1 = Application.income a2 ->
  Application.loan_amount a1 = Application.loan_amount a2 ->
  predict str a1 = predict str a2.
Proof.
  intros _ _ Hc Hi Hl. rewrite !predict_returns. unfold rule.
  now rewrite Hc, Hi, Hl.
Qed.

Lemma X1_predict_reads_three_fields_witness :
  predict (fun _ => EmptyString) (Samples.applicant 720 (Float.of_int 75000))
  = predict (fun _ => EmptyString)
      {| Application.gender := "Male";
         Application.race := "White";
         Application.age := 61;
         Application.income := Float.of_int 75000;
         Application.credit_score := 720;
         Application.loan_amount := Float.of_int 100000;
         Application.employment_type := "Retired";
         Application.education_level := "None";
         Application.citizenship_status := "Resident";
         Application.language_proficiency := "Basic";
         Application.disability_status := "Yes";
         Application.criminal_record := "Yes";
         Application.zip_code_group := "Rural" |}.
Proof.
  apply X1_predict_reads_three_fields;
    try reflexivity; split; unfold fits_int64; cbn; lia.
Defined.

(** X2.  [predict] is monotone in the credit score and in the loan
    amount: an approved application stays approved, with probability 0.8,
    when the credit score is raised and the loan amount lowered, the
    income being the same. *)
Theorem X2_predict_monotone (str : raised -> string)
  (a a' : Application.LoanApplication) (p : PredictionResponse) :
  in_frame a -> in_frame a' ->
  predict str a = Returns p -> approved p = true ->
  Application.credit_score a <= Application.credit_score a' ->
  Application.income a' = Application.income a ->
  Float.leb (Application.loan_amount a') (Application.loan_amount a) = true ->
  exists p',
    predict str a' = Returns p' /\
    approved p' = true /\
    approval_probability p' = Routes.D 80.
Proof.
  intros _ _ Hp Ha Hc Hi Hl. rewrite predict_returns in Hp.
  injection Hp as <-. cbn [approved] in Ha.
  assert (Hr : rule a' = true).
  { unfold rule in *. rewrite Hi.
    apply andb_true_iff in Ha. destruct Ha as (Ha & H3).
    apply andb_true_iff in Ha. destruct Ha as (H1 & H2).
    rewrite H2. apply Z.leb_le in H1.
    rewrite (proj2 (Z.leb_le _ _)) by lia.
    now rewrite (leb_trans _ _ _ Hl H3). }
  eexists. rewrite predict_returns, Hr. repeat split.
Qed.

Lemma X2_predict_monotone_witness :
  exists p',
    predict (fun _ => EmptyString) (Samples.applicant 800 (Float.of_int 75000))
      = Returns p' /\
    approved p' = true /\
    approval_probability p' = Routes.D 80.
Proof.
  apply (X2_predict_monotone (fun _ => EmptyString)
           (Samples.applicant 720 (Float.of_int 75000))
           (Samples.applicant 800 (Float.of_int 75000))
           {| approved := true;
              approval_probability := Routes.D 80;
              explanation := Routes.predict_explanation |});
    try reflexivity; try (split; unfold fits_int64; cbn; lia).
  cbn. lia.
Defined.

Lemma top_of_predict (approved : bool) (probability : Float.float) :
  top_factors {| approved := approved;
                 approval_probability := probability;
                 explanation := Routes.predict_explanation |}
  = [ ("credit_score", Routes.D 40); ("income", Routes.D 30);
      ("loan_amount", Routes.D 20) ]%string.
Proof. vm_compute. reflexivity. Qed.

(** X3.  [explain_loan] on the prediction of [predict]: whatever the
    application, the explanation lists the same three factors, Credit
    Score 40.0%, Income 30.0% and Loan Amount 20.0% (never age, gender or
    race), and quotes the probability 80.0% when approved and 20.0% when
    denied; and all applications that [predict] denies receive the same
    text, byte for byte. *)
Theorem X3_explanation_of_prediction (str : raised -> string) :
  (forall a p,
      in_frame a -> predict str a = Returns p ->
      exists text,
        explain_loan str a p = Returns text /\
        filter is_bullet (split_lines text)
          = map (fun n => ("- " ++ fst n ++ ": This factor had a " ++ snd n
                             ++ "% impact on "
                             ++ (if approved p then "your approval"
                                 else "the decision"))%string)
                [ ("Credit Score", "40.0"); ("Income", "30.0");
                  ("Loan Amount", "20.0") ]%string /\
        contains (if approved p then "probability of 80.0%"
                  else "probability of 20.0%") text = true) /\
  (forall a1 a2 p1 p2,
      in_frame a1 -> in_frame a2 ->
      predict str a1 = Returns p1 -> predict str a2 = Returns p2 ->
      approved p1 = false -> approved p2 = false ->
      explain_loan str a1 p1 = explain_loan str a2 p2).
Proof.
  split.
  - intros a p _ Hp. rewrite predict_returns in Hp. injection Hp as <-.
    eexists. split; [reflexivity|]. split.
    + rewrite Claims.bullets_of_message by (repeat constructor).
      rewrite top_of_predict. cbn [approved].
      destruct (rule a); vm_compute; reflexivity.
    + rewrite generate_loan_explanation_lines. unfold loan_lines.
      cbn [approved approval_probability]. destruct (rule a).
      * apply contains_lines
          with (l := nth 1 (approved_opening
                              (Float.mul (Routes.D 80) Float.hundred))
                         EmptyString).
        -- rewrite in_app_iff. left. right. left. reflexivity.
        -- vm_compute. reflexivity.
      * apply contains_lines
          with (l := nth 1 (denied_opening
                              (Float.mul (Routes.D 20) Float.hundred))
                         EmptyString).
        -- rewrite in_app_iff. left. right. left. reflexivity.
        -- vm_compute. reflexivity.
  - intros a1 a2 p1 p2 _ _ H1 H2 Hd1 Hd2.
    rewrite predict_returns in H1, H2.
    injection H1 as <-. injection H2 as <-. cbn [approved] in Hd1, Hd2.
    unfold explain_loan, except_500, generate_loan_explanation.
    cbn [approved approval_probability]. now rewrite Hd1, Hd2.
Qed.

Lemma X3_explanation_of_prediction_witness :
  exists p text,
    predict (fun _ => EmptyString) (Samples.applicant 580 (Float.of_int 30000))
      = Returns p /\
    approved p = false /\
    explain_loan (fun _ => EmptyString)
                 (Samples.applicant 580 (Float.of_int 30000)) p
      = Returns text /\
    contains "probability of 20.0%" text = true.
Proof.
  destruct (X3_explanation_of_prediction (fun _ => EmptyString)) as (H & _).
  assert (Hf : in_frame (Samples.applicant 580 (Float.of_int 30000)))
    by (split; unfold fits_int64; cbn; lia).
  destruct (H _ _ Hf (predict_returns _ _)) as (text & Ht & _ & Hc).
  eexists. exists text. split; [apply predict_returns|].
  split; [reflexivity|]. split; [exact Ht | exact Hc].
Defined.

Lemma in_viz_map (viz_type : string) :
  existsb (String.eqb viz_type) viz_map = true <-> In viz_type viz_map.
Proof.
  rewrite existsb_exists. split.
  - intros (x & Hx & He). apply String.eqb_eq in He. now subst.
  - intros H. exists viz_type. split; trivial. apply String.eqb_refl.
Qed.

(** X4.  [get_visualization] answers a known type with its placeholder
    message.  For an unknown type the 404 it raises is caught by its own
    [except Exception] clause: the route raises status 500, with the text
    of the 404 as detail, and never status 404. *)
Theorem X4_visualization_never_404 (str : raised -> string)
  (viz_type : string) :
  (In viz_type viz_map ->
   get_visualization str viz_type
   = Returns ("Visualization " ++ viz_type ++ " would be returned here")%string)
  /\
  (~ In viz_type viz_map ->
   get_visualization str viz_type
   = Raises (HTTPException 500
               (str (HTTPException 404
                       ("Visualization " ++ viz_type ++ " not found")%string))))
  /\
  (forall detail,
      get_visualization str viz_type <> Raises (HTTPException 404 detail)).
Proof.
  unfold get_visualization, except_500.
  destruct (existsb (String.eqb viz_type) viz_map) eqn:E; cbn [negb].
  - apply in_viz_map in E. repeat split; try discriminate; tauto.
  - assert (~ In viz_type viz_map)
      by (intros H; apply in_viz_map in H; congruence).
    repeat split; try discriminate; tauto.
Qed.

Lemma X4_visualization_never_404_witness :
  get_visualization (fun _ => "404: Visualization histogram not found"%string)
                    "histogram"
  = Raises (HTTPException 500 "404: Visualization histogram not found") /\
  get_visualization (fun _ => EmptyString) "shap_bar"
  = Returns "Visualization shap_bar would be returned here"%string.
Proof.
  split.
  - refine (proj1 (proj2 (X4_visualization_never_404
                            (fun _ => "404: Visualization histogram not found"%string)
                            "histogram")) _).
    intros H. cbn in H. intuition discriminate.
  - refine (proj1 (X4_visualization_never_404 (fun _ => EmptyString)
                                              "shap_bar") _).
    cbn. tauto.
Defined.

(** ** Errors of the bias report *)

Lemma attribute_details_raises (rates : list (string * Float.float))
  (disparity : Float.float) (message : string) (e : exn) :
  attribute_details rates disparity message = Raise e -> e = ValueError.
Proof.
  unfold attribute_details. destruct rates as [|r rates]; cbn.
  - now intros [= <-].
  - destruct (Float.gtb (Float.abs disparity) Float.five); discriminate.
Qed.

Lemma attribute_section_raises_value_error
  (fairness_data : FairnessResponse) (message : string)
  (ad : string * Float.float) (e : exn) :
  attribute_section fairness_data message ad = Raise e -> e = ValueError.
Proof.
  unfold attribute_section.
  repeat match goal with
         | |- context [if String.eqb ?a ?b then _ else _] =>
             destruct (String.eqb a b)
         end;
    try (destruct (attribute_details _ _ _) as [m|e'] eqn:E; cbn [bind];
         [discriminate | intros [= <-]; now apply attribute_details_raises in E]).
  cbn [bind]. discriminate.
Qed.

Lemma for_each_raises_value_error (fairness_data : FairnessResponse)
  (l : list (string * Float.float)) (message : string) (e : exn) :
  for_each (attribute_section fairness_data) l message = Raise e ->
  e = ValueError.
Proof.
  revert message. induction l as [|ad l IH]; intros message; cbn [for_each].
  - discriminate.
  - destruct (attribute_section fairness_data message ad) as [m|e'] eqn:E;
      cbn [bind].
    + apply IH.
    + intros [= <-]. now apply attribute_section_raises_value_error in E.
Qed.

Lemma generate_bias_explanation_raises (fairness_data : FairnessResponse)
  (e : exn) :
  generate_bias_explanation fairness_data = Raise e -> e = ValueError.
Proof.
  unfold generate_bias_explanation.
  fold (sorted_disparities fairness_data). fold (max_magnitude fairness_data).
  destruct (max_magnitude_ok fairness_data) as (m & ->). cbn [bind].
  destruct (for_each _ _ _) as [m'|e'] eqn:E; cbn [bind]; [discriminate|].
  intros [= <-]. now apply for_each_raises_value_error in E.
Qed.

Lemma rates_nonempty_dec (fairness_data : FairnessResponse) :
  rates_nonempty fairness_data \/ ~ rates_nonempty fairness_data.
Proof.
  unfold rates_nonempty.
  destruct (approval_rates (gender fairness_data));
    destruct (approval_rates (race fairness_data));
    destruct (approval_rates (age_group fairness_data));
    destruct (approval_rates (disability_status fairness_data));
    try (right; intros (? & ? & ? & ?); congruence).
  left. repeat split; discriminate.
Qed.

Lemma X5_bias_report_raises_on_empty_rates_aux
  (fairness_data : FairnessResponse) :
  (rates_nonempty fairness_data <->
   exists message, generate_bias_explanation fairness_data = Ok message) /\
  (~ rates_nonempty fairness_data <->
   generate_bias_explanation fairness_data = Raise ValueError) /\
  (forall e, generate_bias_explanation fairness_data = Raise e ->
             e = ValueError).
Proof.
  assert (Hok : rates_nonempty fairness_data <->
                exists message,
                  generate_bias_explanation fairness_data = Ok message).
  { split.
    - intros H.
      destruct (generate_bias_explanation_lines _ H) as (m & s & _ & _ & Hg).
      eauto.
    - intros (message & H). exact (generate_bias_explanation_ok _ _ H). }
  split; [exact Hok|]. split; [|apply generate_bias_explanation_raises].
  split.
  - intros Hn.
    destruct (generate_bias_explanation fairness_data) as [message|e] eqn:E.
    + exfalso. apply Hn, Hok. eauto.
    + now rewrite (generate_bias_explanation_raises _ _ E).
  - intros Hr Hne. apply Hok in Hne. destruct Hne as (message & Hm).
    congruence.
Qed.

(** X5.  [generate_bias_explanation] returns a report exactly when each of
    the four attributes has at least one group in [approval_rates];
    otherwise [max] is called on an empty sequence and the function raises
    [ValueError], and it raises nothing else. *)
Theorem X5_bias_report_raises_on_empty_rates
  (fairness_data : FairnessResponse) :
  (rates_nonempty fairness_data <->
   exists message, generate_bias_explanation fairness_data = Ok message) /\
  (~ rates_nonempty fairness_data <->
   generate_bias_explanation fairness_data = Raise ValueError) /\
  (forall e, generate_bias_explanation fairness_data = Raise e ->
             e = ValueError).
Proof. exact (X5_bias_report_raises_on_empty_rates_aux fairness_data). Qed.

Lemma X5_bias_report_raises_on_empty_rates_witness :
  generate_bias_explanation
    (Samples.uniform_metrics [] (Routes.D 8)) = Raise ValueError.
Proof.
  apply (proj1 (proj2 (X5_bias_report_raises_on_empty_rates _))).
  intros (H & _). now apply H.
Defined.

(** X6.  Status codes of the explanation routes: [explain_loan] and
    [remediation_strategy] always return a text; [explain_bias] returns
    the report when every attribute has a group and otherwise raises
    status 500 carrying the text of the [ValueError]; no route raises
    another status. *)
Theorem X6_explanation_routes (str : raised -> string) :
  (forall application prediction,
      explain_loan str application prediction
      = Returns (generate_loan_explanation application prediction)) /\
  (forall fairness_data,
      exists text,
        generate_remediation_strategy fairness_data = Ok text /\
        remediation_strategy str fairness_data = Returns text) /\
  (forall fairness_data,
      (rates_nonempty fairness_data ->
       exists text,
         generate_bias_explanation fairness_data = Ok text /\
         explain_bias str fairness_data = Returns text) /\
      (~ rates_nonempty fairness_data ->
       explain_bias str fairness_data
       = Raises (HTTPException 500 (str (Builtin ValueError)))) /\
      (forall e,
          explain_bias str fairness_data = Raises e ->
          e = HTTPException 500 (str (Builtin ValueError)))).
Proof.
  split; [reflexivity|]. split.
  - intros fairness_data.
    destruct (Claims.most_biased_name fairness_data) as (name & _ & Hm).
    exists (lines (strategy_lines name)).
    pose proof (generate_remediation_strategy_lines _ _ Hm) as Hg.
    split; trivial. unfold remediation_strategy. now rewrite Hg.
  - intros fairness_data.
    destruct (X5_bias_report_raises_on_empty_rates_aux fairness_data)
      as (Hok & Hraise & _).
    unfold explain_bias. split; [|split].
    + intros H. apply Hok in H. destruct H as (text & Hg).
      exists text. now rewrite Hg.
    + intros H. apply Hraise in H. now rewrite H.
    + destruct (generate_bias_explanation fairness_data) as [text|e'] eqn:E;
        cbn [except_500]; intros e; [discriminate|].
      intros [= <-]. now rewrite (generate_bias_explanation_raises _ _ E).
Qed.

Lemma X6_explanation_routes_witness :
  explain_bias (fun _ => "max() arg is an empty sequence"%string)
               (Samples.uniform_metrics [] (Routes.D 8))
  = Raises (HTTPException 500 "max() arg is an empty sequence").
Proof.
  refine (proj1 (proj2 (proj2 (proj2 (X6_explanation_routes
            (fun _ => "max() arg is an empty sequence"%string)))
            (Samples.uniform_metrics [] (Routes.D 8)))) _).
  intros (H & _). now apply H.
Defined.

(** ** The alert and the regulatory flags *)

Lemma section_flag (fairness_data : FairnessResponse)
  (l : list (string * Float.float)) (sections : list (list string)) :
  Forall2 (section_of fairness_data) l sections ->
  (Forall (fun ls => ~ In regulatory_concern ls) sections <->
   Forall (fun ad => flagged (snd ad) = false) l).
Proof.
  induction 1 as [|ad ls l sections H _ IH].
  - split; constructor.
  - destruct H as (rates & highest & lowest & _ & _ & _ & ->).
    pose proof (Claims.regulatory_concern_in_section ad highest lowest) as Hr.
    fold (flagged (snd ad)) in Hr.
    split; intros Hf; inversion Hf as [|? ? Hx Hxs]; subst; constructor;
      try (now apply IH).
    + destruct (flagged (snd ad)); trivial. exfalso. now apply Hx, Hr.
    + rewrite Hr, Hx. discriminate.
Qed.

(** X7.  In a bias report whose disparities are not NaN, the summary
    reads "Low Bias Alert" if and only if no subsection carries the
    regulatory-concern line: the alert is above low exactly when some
    attribute is flagged. *)
Theorem X7_low_alert_iff_no_flag (fairness_data : FairnessResponse)
  (message : string) :
  disparities_not_nan fairness_data ->
  generate_bias_explanation fairness_data = Ok message ->
  exists t sections,
    message = lines (report_lines t sections) /\
    Forall2 (section_of fairness_data)
            (sorted_disparities fairness_data) sections /\
    (t = low <-> Forall (fun ls => ~ In regulatory_concern ls) sections).
Proof.
  intros Hn Hg.
  pose proof (generate_bias_explanation_ok _ _ Hg) as Hne.
  destruct (generate_bias_explanation_lines _ Hne)
    as (m & sections & Hm & Hs & Hl).
  exists (severity m), sections.
  split; [congruence|]. split; trivial.
  rewrite (section_flag _ _ _ Hs).
  destruct (Claims.max_magnitude_greatest _ _ Hn Hm) as (Hin & Hall).
  rewrite Claims.severity_low.
  assert (Hd : Forall (fun ad => flagged (snd ad) = false)
                      (sorted_disparities fairness_data)
               <-> Forall (fun ad => flagged (snd ad) = false)
                          (disparities fairness_data)).
  { split; apply Forall_perm;
      [apply Permutation_sym|]; apply sorted_reverse_perm. }
  rewrite Hd. clear Hd. split.
  - intros Hlow. rewrite Forall_forall in Hall. apply Forall_forall.
    intros ad Had. unfold flagged. apply not_true_is_false. intros Hf.
    unfold Float.gtb in *.
    pose proof (ltb_leb_trans _ _ _ Hf (Hall ad Had)) as H5. congruence.
  - intros Hf. apply in_map_iff in Hin. destruct Hin as (ad & <- & Had).
    rewrite Forall_forall in Hf. exact (Hf ad Had).
Qed.

Lemma X7_low_alert_iff_no_flag_witness :
  exists t sections,
    generate_bias_explanation Samples.tied_metrics
      = Ok (lines (report_lines t sections)) /\
    (t = low <-> Forall (fun ls => ~ In regulatory_concern ls) sections).
Proof.
  assert (Hn : disparities_not_nan Samples.tied_metrics)
    by (repeat split; reflexivity).
  assert (Hne : rates_nonempty Samples.tied_metrics)
    by (repeat split; discriminate).
  destruct (generate_bias_explanation_lines _ Hne) as (m & s & _ & _ & Hg).
  destruct (X7_low_alert_iff_no_flag _ _ Hn Hg) as (t & sections & Hm & _ & Hi).
  exists t, sections. split; [|exact Hi]. now rewrite Hg, Hm.
Defined.

(** ** The PDF report *)

(** X8.  The report strips the markdown emphasis by removing every
    asterisk: after [replace('**', '')] and [replace('*', '')] the text is
    the explanation with all asterisks deleted and nothing else changed,
    so the first replacement has no effect of its own. *)
Theorem X8_markdown_removed (explanation_text : string) :
  processed_text explanation_text = remove_stars explanation_text /\
  processed_text explanation_text = str_replace "*" "" explanation_text /\
  star_free (processed_text explanation_text) = true /\
  (star_free explanation_text = true ->
   processed_text explanation_text = explanation_text).
Proof.
  rewrite processed_text_remove_stars. repeat split.
  - symmetry. apply replace_star.
  - apply star_free_remove_stars.
  - apply remove_stars_star_free.
Qed.

Lemma X8_markdown_removed_witness :
  processed_text "BiasShield Decision System" = "BiasShield Decision System"%string.
Proof.
  apply (proj2 (proj2 (proj2 (X8_markdown_removed _)))). reflexivity.
Defined.

(** X9.  Every paragraph the report builds from an explanation text is a
    single line that is not blank and holds no asterisk; hence the guard
    [if paragraph.strip()] in front of the layout never skips a
    paragraph. *)
Theorem X9_paragraphs_never_blank (explanation_text : string) :
  Forall (fun p => paragraph_text p = true) (paragraphs explanation_text) /\
  laid_out explanation_text = paragraphs explanation_text.
Proof.
  pose proof (paragraphs_line_text explanation_text) as H.
  split.
  - revert H. apply Forall_impl. intros p. apply paragraph_text_iff.
  - unfold laid_out. induction H as [|p ps (Hn & _) _ IH]; [reflexivity|].
    cbn [filter]. now rewrite Hn, IH.
Qed.







(** X13.  The PDF table ranks by absolute impact and the explanation text
    by signed impact.  When no impact is negative the two rankings are
    the same list, so the first three rows of the table are the factors
    of the text's bullets; with a negative impact they can differ, as for
    the factors -0.9, 0.1, 0.1, 0.25, -0.05, where the table starts with
    the factor of impact -0.9 and the text does not show it. *)
Theorem X13_table_and_text_rankings (prediction : PredictionResponse) :
  (Forall (fun fi => not_negative (snd fi) = true) (explanation prediction) ->
   factors (explanation prediction)
     = sorted_reverse snd (explanation prediction) /\
   firstn 3 (factors (explanation prediction)) = top_factors prediction) /\
  map fst (firstn 3 (factors (explanation Samples.signed_prediction)))
    = [ "debt_ratio"; "credit_score"; "income" ]%string /\
  map fst (top_factors Samples.signed_prediction)
    = [ "credit_score"; "income"; "age" ]%string.
Proof.
  split; [|split; vm_compute; reflexivity].
  intros H.
  assert (E : factors (explanation prediction)
              = sorted_reverse snd (explanation prediction)).
  { unfold factors. apply sorted_reverse_ext. intros x y Hx Hy.
    rewrite Forall_forall in H. unfold magnitude.
    apply ltb_abs; now apply H. }
  split; trivial. unfold top_factors. now rewrite E.
Qed.

Lemma X13_table_and_text_rankings_witness :
  firstn 3 (factors Routes.predict_explanation)
  = top_factors Samples.denied_prediction.
Proof.
  apply (proj1 (X13_table_and_text_rankings Samples.denied_prediction)).
  repeat constructor.
Defined.


End Extras.
